(** * csod-playground: token cache, resilient fetch and paginator

    A shallow embedding of [src/utils/getCSODToken.ts], [src/utils/apiFetch.ts]
    and [src/users/getAllUsers.ts].  Asynchronous functions are sequential
    here (every [await] is a plain bind), the network is an oracle that
    answers the n-th request, and everything the code mutates or emits (the
    token closure, the clock, the requests sent, the sleeps) is threaded
    through an explicit [World]. *)

From Stdlib Require Import ZArith NArith List String Bool Lia.
Import ListNotations.

Local Open Scope string_scope.
Local Open Scope list_scope.
Local Open Scope Z_scope.

(** ** Values thrown by the runtime *)

Inductive Exn : Type :=
| NetworkFault (reason : string)   (* DNS failure, connection reset: fetch rejects *)
| MalformedBody (reason : string)  (* response.json() rejects *)
| TypeError (reason : string).     (* JSON.stringify on a cyclic value, fetch(undefined) *)

(** The three ways a call can end.  [OutOfFuel] only marks a recursion that
    was cut by the model; it is no JavaScript value. *)
Inductive Res (A : Type) : Type :=
| Returned (a : A)
| Thrown (e : Exn)
| OutOfFuel.
Arguments Returned {A} a.
Arguments Thrown {A} e.
Arguments OutOfFuel {A}.

(** ** Requests and responses *)

Inductive Method : Type := GET | POST.

(** type ApiMethod = 'GET' | 'POST' | undefined *)
Definition ApiMethod : Type := option Method.

Definition Headers : Type := list (string * string).

(** [payload: unknown], seen through the only two things the code does to it:
    the truthiness test and [JSON.stringify]. *)
Inductive Payload : Type :=
| Falsy                           (* null, undefined, 0, the empty string, false *)
| Serializable (text : string)    (* truthy, JSON.stringify returns [text] *)
| Unserializable (e : Exn).       (* truthy, JSON.stringify throws [e] *)

Record Request : Type := mkRequest {
  req_uri : string;
  req_headers : Headers;
  req_method : Method;
  req_body : option string
}.

Fixpoint set_header (k v : string) (h : Headers) : Headers :=
  match h with
  | [] => [(k, v)]
  | (k', v') :: rest =>
      if String.eqb k k' then (k', v) :: rest else (k', v') :: set_header k v rest
  end.

(** Object spread [{ ...base, ...extra }]: later keys override earlier ones
    and keep the position of the key they override. *)
Definition spread (base extra : Headers) : Headers :=
  fold_left (fun acc kv => set_header (fst kv) (snd kv) acc) extra base.

Inductive Event : Type :=
| Slept (sec : Z)
| Requested (r : Request)
| TokenRequested.

(** export interface TokenResponse; a field is [None] when the parsed body
    does not have it. *)
Record TokenResponse : Type := mkTokenResponse {
  access_token : option string;
  token_type : option string
}.

Record OauthResponse : Type := mkOauthResponse {
  oauth_status : Z;
  oauth_json : Exn + TokenResponse
}.

Inductive OauthReply : Type :=
| OauthRejected (e : Exn)
| OauthResolved (r : OauthResponse).

(** ** The world *)

Record World : Type := mkWorld {
  clock : Z;                 (* milliseconds, what [new Date()] reads *)
  token : option string;     (* let token: string       (apiToken closure) *)
  expiration : option Z;     (* let expiration: Date    (apiToken closure) *)
  oauth_sent : nat;          (* requests sent to /oauth2/token *)
  api_sent : nat;            (* requests sent through fetch to the API *)
  trace : list Event         (* chronological *)
}.

Definition M (A : Type) : Type := World -> Res A * World.

Definition ret {A} (a : A) : M A := fun w => (Returned a, w).

Definition throw {A} (e : Exn) : M A := fun w => (Thrown e, w).

Definition diverge {A} : M A := fun w => (OutOfFuel, w).

Definition bind {A B} (m : M A) (k : A -> M B) : M B :=
  fun w =>
    match m w with
    | (Returned a, w') => k a w'
    | (Thrown e, w') => (Thrown e, w')
    | (OutOfFuel, w') => (OutOfFuel, w')
    end.

(** try { m } catch (error) { h error } *)
Definition try_catch {A} (m : M A) (h : Exn -> M A) : M A :=
  fun w =>
    match m w with
    | (Thrown e, w') => h e w'
    | other => other
    end.

Declare Scope js_scope.
Delimit Scope js_scope with js.
Notation "x <- c1 ;; c2" := (bind c1 (fun x => c2))
  (at level 100, c1 at next level, right associativity) : js_scope.
Notation "c1 ;;; c2" := (bind c1 (fun _ => c2))
  (at level 100, right associativity) : js_scope.
Local Open Scope js_scope.

(** Truthiness of a [string | undefined]. *)
Definition truthy (s : option string) : bool :=
  match s with
  | Some s' => negb (String.eqb s' "")
  | None => false
  end.

(** Template-literal rendering of a [string | undefined]. *)
Definition render (s : option string) : string :=
  match s with
  | Some s' => s'
  | None => "undefined"
  end.

(** `${token_type} ${access_token}` *)
Definition bearer_value (b : TokenResponse) : string :=
  render (token_type b) ++ " " ++ render (access_token b).

Section Client.

(** The type [T] the parsed response body is cast to. *)
Context {Body : Type}.

Record Response : Type := mkResponse {
  status : Z;
  statusText : string;
  json : Exn + Body       (* what [await response.json()] does *)
}.

Inductive Reply : Type :=
| Rejected (e : Exn)
| Resolved (r : Response).

(** Everything outside the process: the environment variable, the two
    servers and the time zone of the host.  The n-th request gets the n-th
    answer.  [LocalTZA t isUTC] is the offset of local time from UTC in
    milliseconds, as ECMAScript has it: at the UTC time [t] when [isUTC], and
    for the local time [t] otherwise. *)
Record Env : Type := mkEnv {
  process_env_CSOD_API_HOST : option string;
  api_reply : nat -> Request -> Reply;
  api_latency : nat -> N;
  oauth_reply : nat -> OauthReply;
  oauth_latency : nat -> N;
  LocalTZA : Z -> bool -> Z
}.

Variable env : Env.

(** env.ts: process.env.CSOD_API_HOST || '' *)
Definition CSOD_API_HOST : string :=
  if truthy (process_env_CSOD_API_HOST env)
  then render (process_env_CSOD_API_HOST env) else "".

(** *** Primitives *)

(** Reading a variable of the world. *)
Definition gets {A} (f : World -> A) : M A := fun w => (Returned (f w), w).

(** new Date() *)
Definition new_Date : M Z := gets clock.

(** sleep(sec): setTimeout(resolve, sec * 1000) *)
Definition sleep (sec : Z) : M unit :=
  fun w =>
    (Returned tt,
     mkWorld (clock w + 1000 * Z.max 0 sec) (token w) (expiration w)
             (oauth_sent w) (api_sent w) (trace w ++ [Slept sec])).

(** await fetch(uri, init) *)
Definition fetch (r : Request) : M Response :=
  fun w =>
    let w' := mkWorld (clock w + Z.of_N (api_latency env (api_sent w)))
                      (token w) (expiration w) (oauth_sent w)
                      (S (api_sent w)) (trace w ++ [Requested r]) in
    match api_reply env (api_sent w) r with
    | Rejected e => (Thrown e, w')
    | Resolved resp => (Returned resp, w')
    end.

(** await response.json() *)
Definition response_json (resp : Response) : M Body :=
  match json resp with
  | inl e => throw e
  | inr b => ret b
  end.

(** payload ? JSON.stringify(payload) : undefined *)
Definition stringify_payload (p : Payload) : M (option string) :=
  match p with
  | Falsy => ret None
  | Serializable text => ret (Some text)
  | Unserializable e => throw e
  end.

(** *** getCSODToken.ts *)

(** getOauthToken: one POST to `${CSOD_API_HOST}/oauth2/token` *)
Definition getOauthToken : M OauthResponse :=
  fun w =>
    let w' := mkWorld (clock w + Z.of_N (oauth_latency env (oauth_sent w)))
                      (token w) (expiration w) (S (oauth_sent w))
                      (api_sent w) (trace w ++ [TokenRequested]) in
    match oauth_reply env (oauth_sent w) with
    | OauthRejected e => (Thrown e, w')
    | OauthResolved r => (Returned r, w')
    end.

Definition fetchAPIToken : M string :=
  tokenResponse <- getOauthToken ;;
  body <- (match oauth_json tokenResponse with
           | inl e => throw e
           | inr b => ret b
           end) ;;
  ret (bearer_value body).

(** !token || !expiration || now > expiration *)
Definition must_issue (now : Z) (w : World) : bool :=
  negb (truthy (token w))
  || match expiration w with
     | None => true
     | Some e => now >? e
     end.

Definition set_token (t : string) : M unit :=
  fun w =>
    (Returned tt,
     mkWorld (clock w) (Some t) (expiration w) (oauth_sent w) (api_sent w)
             (trace w)).

Definition set_expiration (e : Z) : M unit :=
  fun w =>
    (Returned tt,
     mkWorld (clock w) (token w) (Some e) (oauth_sent w) (api_sent w)
             (trace w)).

(** expiration.setSeconds(expiration.getSeconds() + 15) on the date [d].
    The seconds are read and set in local time: with t = LocalTime(d), the new
    time value is UTC(MakeDate(Day(t), MakeTime(hour, min, sec + 15, ms))),
    and that date is t + 15 000. *)
Definition plus_15_seconds (d : Z) : Z :=
  let t := d + LocalTZA env d true in
  let date := t + 15 * 1000 in
  date - LocalTZA env date false.

(** apiToken.get *)
Definition get : M string :=
  now <- new_Date ;;
  stale <- gets (must_issue now) ;;
  (if stale then
     t <- fetchAPIToken ;;
     set_token t ;;;
     d <- new_Date ;;
     set_expiration (plus_15_seconds d)
   else ret tt) ;;;
  t <- gets token ;;
  ret (render t).

Definition getCSODToken : M string := get.

(** *** apiFetch.ts *)

Inductive FailureBody : Type :=
| Message (message : string) (error : option Exn)   (* { message, error? } *)
| Upstream (body : Body).                           (* the parsed body *)

(** export type FetchResponse *)
Record FetchResponse : Type := mkFetchResponse {
  ok : bool;
  body : FailureBody;
  code : option Z;
  response : option Response
}.

(** Promise<[T, null] | [null, FetchResponse]> *)
Inductive FetchOutcome : Type :=
| Ok (b : Body)                 (* [body, null] *)
| Err (f : FetchResponse).      (* [null, fetchError] *)

Definition gave_up : FetchResponse :=
  mkFetchResponse false (Message "429 - Gave up" None) (Some 0) None.

Definition throwed_up (error : Exn) : FetchResponse :=
  mkFetchResponse false (Message "fetch throwed up" (Some error)) (Some 0) None.

Definition bad_response (c : Z) (b : Body) (resp : Response) : FetchResponse :=
  mkFetchResponse true (Upstream b) (Some c) (Some resp).

Definition default_method (m : ApiMethod) : Method :=
  match m with
  | Some m' => m'
  | None => POST
  end.

Definition api_request (uri : string) (headers : Headers) (m : ApiMethod)
    (b : option string) : Request :=
  mkRequest uri (spread [("Content-Type", "application/json")] headers)
            (default_method m) b.

(** The recursion of the source is on [delay]; [fuel] bounds its depth.
    The logger calls only write to the console and are left out. *)
Fixpoint apiFetch_rec (fuel : nat) (uri : string) (headers : Headers)
    (payload : Payload) (method : ApiMethod) (delay : Z) : M FetchOutcome :=
  match fuel with
  | O => diverge
  | S fuel' =>
      sleep delay ;;;
      try_catch
        (b <- stringify_payload payload ;;
         resp <- fetch (api_request uri headers method b) ;;
         body <- response_json resp ;;
         let code := status resp in
         let tooManyRequests := code =? 429 in
         if tooManyRequests then
           if delay <=? 60 then
             apiFetch_rec fuel' uri headers payload method (delay + 15)
           else ret (Err gave_up)
         else
           let ok := code =? 200 in
           if negb ok then ret (Err (bad_response code body resp))
           else ret (Ok body))
        (fun error => ret (Err (throwed_up error)))
  end.

(** What the [try] block of one call settles: the outcome, or that the call
    goes on with the recursive one. *)
Inductive Settled : Type :=
| Done (o : FetchOutcome)
| Retry.

(** The source returns the promise of the recursive call from inside the
    [try] block without awaiting it, so that promise is settled once the
    block is left and an exception of the recursive call would pass the
    [catch].  This variant takes the recursive call out of the block; it is
    shown below to be the same function. *)
Fixpoint apiFetch_unawaited (fuel : nat) (uri : string) (headers : Headers)
    (payload : Payload) (method : ApiMethod) (delay : Z) : M FetchOutcome :=
  match fuel with
  | O => diverge
  | S fuel' =>
      sleep delay ;;;
      s <- try_catch
             (b <- stringify_payload payload ;;
              resp <- fetch (api_request uri headers method b) ;;
              body <- response_json resp ;;
              let code := status resp in
              if code =? 429 then
                if delay <=? 60 then ret Retry else ret (Done (Err gave_up))
              else if negb (code =? 200)
                   then ret (Done (Err (bad_response code body resp)))
                   else ret (Done (Ok body)))
             (fun error => ret (Done (Err (throwed_up error)))) ;;
      match s with
      | Retry => apiFetch_unawaited fuel' uri headers payload method (delay + 15)
      | Done o => ret o
      end
  end.

(** Enough fuel for every retry a call starting at [delay] can make. *)
Definition retry_fuel (delay : Z) : nat := S (Z.to_nat (75 - delay)).

Definition apiFetch (uri : string) (headers : Headers) (payload : Payload)
    (method : ApiMethod) (delay : Z) : M FetchOutcome :=
  apiFetch_rec (retry_fuel delay) uri headers payload method delay.

End Client.

Arguments Response : clear implicits.
Arguments Reply : clear implicits.
Arguments Env : clear implicits.
Arguments FetchResponse : clear implicits.
Arguments FetchOutcome : clear implicits.
Arguments FailureBody : clear implicits.
Arguments Settled : clear implicits.

(** ** Pagination *)

(** export type ODataResponse<T>.  The bodies of the model have this type.
    The source casts the parsed body to it without a check: a body without
    an array under [value] has no counterpart here. *)
Record ODataResponse (T : Type) : Type := mkOData {
  odata_count : option Z;
  value : list T;
  odata_nextLink : option string
}.
Arguments mkOData {T} _ _ _.
Arguments odata_count {T} _.
Arguments value {T} _.
Arguments odata_nextLink {T} _.

Section Pagination.

Context {T : Type}.
Variable env : Env (ODataResponse T).

(** token ?? (await getCSODToken()) *)
Definition token_or_get (token : option string) : M string :=
  match token with
  | Some t => ret t
  | None => getCSODToken env
  end.

(** The recursive flavour.  [collection] and [token] are the optional
    parameters of the source; the recursion follows the server's next links
    and has no bound of its own, so [fuel] counts the pages it may fetch. *)
Fixpoint paginatedFetchFromCSOD (fuel : nat) (uripath : string)
    (collection : option (list T)) (token : option string) : M (list T) :=
  match fuel with
  | O => diverge
  | S fuel' =>
      token <- token_or_get token ;;
      let uri := match collection with
                 | Some _ => uripath
                 | None => (CSOD_API_HOST env ++ uripath)%string
                 end in
      let headers := [("Authorization", token)] in
      let collection := match collection with
                        | Some c => c
                        | None => []
                        end in
      r <- apiFetch env uri headers Falsy (Some GET) 0 ;;
      match r with
      | Err fetchError => ret collection
      | Ok response =>
          let collection := collection ++ value response in
          let nextLink := odata_nextLink response in
          if negb (truthy nextLink) then ret collection
          else paginatedFetchFromCSOD fuel' (render nextLink)
                                      (Some collection) (Some token)
      end
  end.

(** fetch(apiUrl, init) where [apiUrl] may be undefined: node-fetch rejects
    a URL that is not absolute before anything is sent. *)
Definition fetch_any (apiUrl : option string) (headers : Headers)
    (method : Method) : M (Response (ODataResponse T)) :=
  match apiUrl with
  | Some uri => fetch env (mkRequest uri headers method None)
  | None => throw (TypeError "Only absolute URLs are supported")
  end.

(** The body of [while(1)] in getAllUsers; [fuel] counts iterations. *)
Fixpoint getAllUsers_loop (fuel : nat) (token : string)
    (apiUrl : option string) (allUsers : list T) : M (list T) :=
  match fuel with
  | O => diverge
  | S fuel' =>
      usersResp <- fetch_any apiUrl
                     [("Content-Type", "application/json");
                      ("Authorization", token)] GET ;;
      userPayload <- response_json usersResp ;;
      let users := value userPayload in
      let allUsers := allUsers ++ users in
      if (List.length users <? 1000)%nat then ret allUsers
      else getAllUsers_loop fuel' token (odata_nextLink userPayload) allUsers
  end.

(** getAllUsers.ts reads process.env.CSOD_API_HOST itself, without the
    [|| ''] of env.ts. *)
Definition getAllUsers (fuel : nat) (token : string) : M (list T) :=
  getAllUsers_loop fuel token
    (Some (render (process_env_CSOD_API_HOST env)
           ++ "/x/odata/api/views/vw_rpt_user")%string)
    [].

End Pagination.

(** ** Callers and servers used to state the properties *)

Definition fresh : World := mkWorld 0 None None 0 0 [].

(** Time that passes in the caller between two calls. *)
Definition elapse (ms : N) : M unit :=
  fun w =>
    (Returned tt,
     mkWorld (clock w + Z.of_N ms) (token w) (expiration w) (oauth_sent w)
             (api_sent w) (trace w)).

(** The delays the client slept, in order. *)
Fixpoint slept (t : list Event) : list Z :=
  match t with
  | [] => []
  | Slept sec :: rest => sec :: slept rest
  | _ :: rest => slept rest
  end.

(** The requests the client sent to the API, in order. *)
Fixpoint requested (t : list Event) : list Request :=
  match t with
  | [] => []
  | Requested r :: rest => r :: requested rest
  | _ :: rest => requested rest
  end.

Section Callers.

Context {Body : Type}.
Variable env : Env Body.

(** A caller that calls get() once per element of [gaps], each call
    [gap] milliseconds after the previous one returned. *)
Fixpoint get_calls (gaps : list N) : M (list string) :=
  match gaps with
  | [] => ret []
  | gap :: rest =>
      elapse gap ;;;
      t <- get env ;;
      ts <- get_calls rest ;;
      ret (t :: ts)
  end.

(** The token endpoint answers its n-th request with a body that parses. *)
Definition issues (n : nat) (b : TokenResponse) : Prop :=
  exists r, oauth_reply env n = OauthResolved r /\ oauth_json r = inr b.

(** The n-th request to the token endpoint ends in the exception [e]. *)
Definition issue_throws (n : nat) (e : Exn) : Prop :=
  oauth_reply env n = OauthRejected e
  \/ exists r, oauth_reply env n = OauthResolved r /\ oauth_json r = inl e.

(** The world once the token endpoint has answered. *)
Definition token_requested (w : World) : World :=
  mkWorld (clock w + Z.of_N (oauth_latency env (oauth_sent w)))
          (token w) (expiration w) (S (oauth_sent w)) (api_sent w)
          (trace w ++ [TokenRequested]).

(** The world once get() has stored the token of the body [b]. *)
Definition token_stored (b : TokenResponse) (w : World) : World :=
  mkWorld (clock (token_requested w)) (Some (bearer_value b))
          (Some (plus_15_seconds env (clock (token_requested w))))
          (S (oauth_sent w)) (api_sent w) (trace w ++ [TokenRequested]).

(** The world after one attempt of apiFetch: the sleep, then the request. *)
Definition attempted (r : Request) (delay : Z) (w : World) : World :=
  snd (fetch env r (snd (sleep delay w))).

(** The world after [k] attempts in a row, the first one at [delay]. *)
Fixpoint retried (r : Request) (k : nat) (delay : Z) (w : World) : World :=
  match k with
  | O => w
  | S k' => retried r k' (delay + 15) (attempted r delay w)
  end.

(** What [k] attempts in a row add to the trace. *)
Fixpoint attempts_trace (r : Request) (k : nat) (delay : Z) : list Event :=
  match k with
  | O => []
  | S k' => Slept delay :: Requested r :: attempts_trace r k' (delay + 15)
  end.

(** The request apiFetch sends for its arguments. *)
Definition request_of (uri : string) (headers : Headers) (p : Payload)
    (m : ApiMethod) : Request :=
  api_request uri headers m
    match p with
    | Serializable text => Some text
    | _ => None
    end.

(** The n-th request, if it is [r], is answered 429 with a body that parses. *)
Definition rate_limited (n : nat) (r : Request) : Prop :=
  exists resp b,
    api_reply env n r = Resolved resp /\ status resp = 429 /\ json resp = inr b.

(** The n-th request, if it is [r], is answered with status [c] and the
    parsed body [b]. *)
Definition answered (n : nat) (r : Request) (resp : Response Body)
    (c : Z) (b : Body) : Prop :=
  api_reply env n r = Resolved resp /\ status resp = c /\ json resp = inr b.

(** The n-th request, if it is [r], ends in the exception [e]: fetch
    rejects, or the body of the response does not parse. *)
Definition faulted (n : nat) (r : Request) (e : Exn) : Prop :=
  api_reply env n r = Rejected e
  \/ exists resp, api_reply env n r = Resolved resp /\ json resp = inl e.

(** What [payload ? JSON.stringify(payload) : undefined] evaluates to. *)
Definition payload_text (p : Payload) : Exn + option string :=
  match p with
  | Falsy => inr None
  | Serializable text => inr (Some text)
  | Unserializable e => inl e
  end.

(** How the outcome of a call relates to the answer to the last request
    it sent.  [sent] is the number of requests after the call. *)
Inductive Classified (r : Request) (p : Payload) (sent : nat)
  : FetchOutcome Body -> Prop :=
| class_success resp b :
    answered (pred sent) r resp 200 b ->
    Classified r p sent (Ok b)
| class_upstream resp c b :
    answered (pred sent) r resp c b -> c <> 200 -> c <> 429 ->
    Classified r p sent (Err (bad_response c b resp))
| class_rate_limited :
    rate_limited (pred sent) r ->
    Classified r p sent (Err gave_up)
| class_transport e :
    faulted (pred sent) r e ->
    Classified r p sent (Err (throwed_up e))
| class_payload e :
    p = Unserializable e ->
    Classified r p sent (Err (throwed_up e)).

End Callers.

Section Walks.

Context {T : Type}.
Variable env : Env (ODataResponse T).

(** const uri = collection ? uripath : `${CSOD_API_HOST}${uripath}` *)
Definition first_uri (collection : option (list T)) (uripath : string) : string :=
  match collection with
  | Some _ => uripath
  | None => (CSOD_API_HOST env ++ uripath)%string
  end.

(** collection ??= [] *)
Definition first_collection (collection : option (list T)) : list T :=
  match collection with
  | Some c => c
  | None => []
  end.

(** The request the paginator sends for a page. *)
Definition page_request (uri tok : string) : Request :=
  request_of uri [("Authorization", tok)] Falsy (Some GET).

(** A walk over pages as the resilient fetch delivers them: starting at
    [uri] in world [w], the pages [ps] are fetched one after the other, each
    at the next link of the one before.  The walk is complete when the last
    page has no next link; it is cut when the fetch after the last page of
    [ps] returns a failure. *)
Inductive Pages (tok : string)
  : string -> World -> list (ODataResponse T) -> bool -> World -> Prop :=
| pages_last uri w p w' :
    apiFetch env uri [("Authorization", tok)] Falsy (Some GET) 0 w
    = (Returned (Ok p), w') ->
    truthy (odata_nextLink p) = false ->
    Pages tok uri w [p] true w'
| pages_cut uri w fetchError w' :
    apiFetch env uri [("Authorization", tok)] Falsy (Some GET) 0 w
    = (Returned (Err fetchError), w') ->
    Pages tok uri w [] false w'
| pages_next uri w p link w' ps complete w'' :
    apiFetch env uri [("Authorization", tok)] Falsy (Some GET) 0 w
    = (Returned (Ok p), w') ->
    odata_nextLink p = Some link ->
    truthy (Some link) = true ->
    Pages tok link w' ps complete w'' ->
    Pages tok uri w (p :: ps) complete w''.

(** The server answers the requests after [w], whatever they ask for, with
    the pages of the list, in order, each with status 200. *)
Definition serves (w : World) (pages : list (ODataResponse T)) : Prop :=
  forall i p r,
    nth_error pages i = Some p ->
    exists resp, answered env (api_sent w + i) r resp 200 p.

(** The backing dataset is a function from URI to answer: neither the
    position of a request in time nor its headers matter. *)
Definition dataset_by_uri : Prop :=
  forall n m r1 r2,
    req_uri r1 = req_uri r2 -> api_reply env n r1 = api_reply env m r2.

End Walks.

(** The offset of the host from UTC is the same 15 seconds after the instant
    [d] as at [d]: no change of the offset falls between the two. *)
Definition offset_stable {Body} (env : Env Body) (d : Z) : Prop :=
  LocalTZA env (d + LocalTZA env d true + 15 * 1000) false = LocalTZA env d true.

(** No stored expiration lies more than 15 seconds ahead of the clock. *)
Definition expires_within_ttl (w : World) : Prop :=
  match expiration w with
  | Some e => e <= clock w + 15 * 1000
  | None => True
  end.

Definition total (gaps : list N) : N := fold_right N.add 0%N gaps.

(** Spec 4.1 counts an issuing request as failed on a network error or a
    status outside 2xx. *)
Definition request_failed (reply : OauthReply) : bool :=
  match reply with
  | OauthRejected _ => true
  | OauthResolved r => negb ((200 <=? oauth_status r) && (oauth_status r <=? 299))
  end.

(** ** Concrete servers *)

Definition Rows : Type := ODataResponse string.

Definition page (rows : list string) (next : option string) : Rows :=
  mkOData None rows next.

Definition http (c : Z) (text : string) (b : Rows) : Reply Rows :=
  Resolved (mkResponse c text (inr b)).

Definition bearer : OauthReply :=
  OauthResolved
    (mkOauthResponse 200 (inr (mkTokenResponse (Some "abc") (Some "Bearer")))).

(** A server with the given API answers whose token endpoint always issues
    "Bearer abc"; no request takes time and the host is on UTC. *)
Definition server (answers : nat -> Request -> Reply Rows) : Env Rows :=
  mkEnv (Some "https://csod.example") answers (fun _ => 0%N)
        (fun _ => bearer) (fun _ => 0%N) (fun _ _ => 0).

Definition too_many : Reply Rows := http 429 "Too Many Requests" (page [] None).

Definition always_429 : Env Rows := server (fun _ _ => too_many).

(** [n] answers 429, then the given answer. *)
Definition after_429 (n : nat) (answer : Reply Rows) : Env Rows :=
  server (fun i _ => if (i <? n)%nat then too_many else answer).

(** Two pages served in order: the first has a next link, the second none. *)
Definition two_pages : Env Rows :=
  server (fun i _ =>
            match i with
            | O => http 200 "OK" (page ["a"] (Some "https://csod.example/x?page=2"))
            | _ => http 200 "OK" (page ["b"] None)
            end).

(** A first page with a next link, then a connection that breaks. *)
Definition broken_second : Env Rows :=
  server (fun i _ =>
            match i with
            | O => http 200 "OK" (page ["a"] (Some "https://csod.example/x?page=2"))
            | _ => Rejected (NetworkFault "ECONNRESET")
            end).

(** A full page of 1000 rows with a next link, then a short page. *)
Definition full_then_short : Env Rows :=
  server (fun i _ =>
            match i with
            | O => http 200 "OK" (page (repeat "u" 1000)
                                       (Some "https://csod.example/x?page=2"))
            | _ => http 200 "OK" (page ["v"] None)
            end).

(** A dataset keyed by URI. *)
Definition dataset : Env Rows :=
  server (fun _ r =>
            if String.eqb (req_uri r) "https://csod.example/x"
            then http 200 "OK" (page ["a"; "b"] (Some "https://csod.example/x?page=2"))
            else if String.eqb (req_uri r) "https://csod.example/x?page=2"
            then http 200 "OK" (page ["c"] None)
            else Rejected (NetworkFault "ECONNRESET")).

(** A token endpoint that refuses the client: 401 with a JSON error body,
    which has neither [token_type] nor [access_token]. *)
Definition unauthorized : OauthReply :=
  OauthResolved (mkOauthResponse 401 (inr (mkTokenResponse None None))).

Definition refusing : Env Rows :=
  mkEnv (Some "https://csod.example") (fun _ _ => too_many) (fun _ => 0%N)
        (fun _ => unauthorized) (fun _ => 0%N) (fun _ _ => 0).

(** A host whose clocks go back one hour, from UTC+2 to UTC+1, ten seconds
    after the clock reading 0: local times before 7 210 000 are read with the
    offset before the change. *)
Definition clocks_go_back : Env Rows :=
  mkEnv (Some "https://csod.example") (fun _ _ => too_many) (fun _ => 0%N)
        (fun _ => bearer) (fun _ => 0%N)
        (fun t isUTC =>
           if isUTC then (if t <? 10000 then 7200000 else 3600000)
           else (if t <? 7210000 then 7200000 else 3600000)).

(** A token endpoint that cannot be reached. *)
Definition unreachable : Env Rows :=
  mkEnv (Some "https://csod.example") (fun _ _ => too_many) (fun _ => 0%N)
        (fun _ => OauthRejected (NetworkFault "ENOTFOUND")) (fun _ => 0%N)
        (fun _ _ => 0).

(** ** The other entry points of apiFetch.ts *)

(** The value an object holds under a key: the first pair with that key. *)
Fixpoint header_value (k : string) (h : Headers) : option string :=
  match h with
  | [] => None
  | (k', v) :: rest => if String.eqb k k' then Some v else header_value k rest
  end.

Section Wrappers.

Context {Body : Type}.
Variable env : Env Body.

(** env.ts: process.env.SYNC_API_TOKEN || '' *)
Variable SYNC_API_TOKEN : string.

(** method: ApiMethod = 'POST' *)
Definition syncToEndpoint (uri : string) (payload : Payload) (method : ApiMethod)
    : M (FetchOutcome Body) :=
  let method := Some (default_method method) in
  let headers := [("Auth-Token", SYNC_API_TOKEN)] in
  apiFetch env uri headers payload method 0.

(** token: string | null = null *)
Definition fetchFromCSOD (uripath : string) (method : ApiMethod)
    (payload : Payload) (token : option string) : M (FetchOutcome Body) :=
  token <- (match token with
            | Some t => ret t
            | None => getCSODToken env
            end) ;;
  let uri := (CSOD_API_HOST env ++ uripath)%string in
  let headers := [("Authorization", token)] in
  apiFetch env uri headers payload method 0.

End Wrappers.

(** ** users/ *)

(** What getUsersByPagination resolves to when it is not null. *)
Record UsersPage (T : Type) : Type := mkUsersPage {
  page_pageNo : Z;
  page_users : list T;
  page_total : option Z
}.
Arguments mkUsersPage {T} _ _ _.
Arguments page_pageNo {T} _.
Arguments page_users {T} _.
Arguments page_total {T} _.

Section Users.

Context {T : Type}.
Variable env : Env (ODataResponse T).

(** `${n}` for a number [n]; the numbers are integers here. *)
Variable number_text : Z -> string.

Definition user_headers (token : string) : Headers :=
  [("Content-Type", "application/json"); ("Authorization", token)].

(** [null] is [None].  The page number is an integer; the subtraction is the
    one of the source as long as the number is at most 2^53, where doubles are
    exact, and a page number with a fraction is outside the model. *)
Definition getUsersByPagination (token : string) (pageNo top : Z)
    : M (option (UsersPage T)) :=
  if pageNo <? 0 then ret None
  else
    let pageNo := if pageNo =? 0 then pageNo else pageNo - 1 in
    usersResp <- fetch env
                   (mkRequest
                      (render (process_env_CSOD_API_HOST env)
                       ++ "/x/odata/api/views/vw_rpt_user?$top=" ++ number_text top
                       ++ "&$pageNo=" ++ number_text pageNo ++ "&$count=true")%string
                      (user_headers token) GET None) ;;
    userPayload <- response_json usersResp ;;
    ret (Some (mkUsersPage pageNo (value userPayload) (odata_count userPayload))).

(** users/getUserInfo.ts.  The result is the object { user: user.value[0] };
    [None] is the [undefined] an empty array gives. *)
Definition getUserInfoById (token : string) (userId : Z) : M (option T) :=
  let apiUrl := (render (process_env_CSOD_API_HOST env)
                 ++ "/x/odata/api/views/vw_rpt_user?$filter=user_id eq "
                 ++ number_text userId)%string in
  userResp <- fetch env (mkRequest apiUrl (user_headers token) GET None) ;;
  user <- response_json userResp ;;
  ret (hd_error (value user)).

End Users.

(** ** index.ts *)

Module Index.

(** interface UserDetails *)
Record UserDetails : Type := mkUserDetails {
  user_id : Z;
  user_ref : string;
  user_status_id : Z;
  user_name_first : string;
  user_name_last : string;
  user_email : string;
  user_mgr_email : string;
  user_mgr_ref : string;
  user_mgr_name_first : string;
  user_mgr_name_last : string;
  user_mgr_id : Z;
  user_employment_status_id : Z;
  user_deactivation_dt : string;
  user_activation_dt : string;
  user_termination_dt : string;
  user_termination_reason_id : Z;
  user_termination_type : string;
  user_type : string;
  ou_id : option Z;
  ou_title : option string;
  job_code : option string;
  updated_at : option string
}.

(** fakeUser(user_id, err); [err] is only logged. *)
Definition fakeUser (user_id : Z) : UserDetails :=
  mkUserDetails user_id "blank" 999 "blanky" "Blankenson" "" "" "oof" "" "" 0 0
                "null" "null" "today" 1 "fraud" "non-existant"
                None None None None.

(** What getJson puts in the second place of its pair. *)
Inductive JsonError (D : Type) : Type :=
| FetchFailed (apiUrl : string) (data : D)   (* { message: 'Fetch failed', apiUrl, data } *)
| Raised (e : Exn).
Arguments FetchFailed {D} _ _.
Arguments Raised {D} _.

(** One element of TranscriptData.data. *)
Record TranscriptPage (I : Type) : Type := mkTranscriptPage {
  InprogressSummaryUrl : string;
  Transcripts : list I;
  TranscriptsSummaryUrl : string
}.
Arguments mkTranscriptPage {I} _ _ _.
Arguments Transcripts {I} _.

(** interface TranscriptData *)
Record TranscriptData (I : Type) : Type := mkTranscriptData {
  data : list (TranscriptPage I)
}.
Arguments mkTranscriptData {I} _.
Arguments data {I} _.

Section UserInfo.

Variable env : Env (ODataResponse UserDetails).
Variable number_text : Z -> string.

(** The fetch is before the [try] block; the recursive call is awaited inside
    it.  The recursion on 429 has no bound, [fuel] counts the requests. *)
Fixpoint getUserInfoById (fuel : nat) (token : string) (userId : Z)
    : M (option UserDetails) :=
  match fuel with
  | O => diverge
  | S fuel' =>
      let apiUrl := (render (process_env_CSOD_API_HOST env)
                     ++ "/x/odata/api/views/vw_rpt_user?$filter=user_id eq "
                     ++ number_text userId)%string in
      userResp <- fetch env (mkRequest apiUrl
                               [("Content-Type", "application/json");
                                ("Authorization", token)] GET None) ;;
      try_catch
        (let code := status userResp in
         if code =? 200 then
           user <- response_json userResp ;;
           ret (hd_error (value user))
         else if code =? 429 then
           sleep 60 ;;;
           getUserInfoById fuel' token userId
         else
           sleep 20 ;;;
           ret (Some (fakeUser userId)))
        (fun err => ret (Some (fakeUser userId)))
  end.

End UserInfo.

(** The body of an answer of the transcript endpoint, as the unchecked cast
    [as T] of getJson leaves it: [Some] of a TranscriptData, or [None] for
    the JSON value null.  Bodies of any other shape are not modelled. *)
Definition TranscriptBody (I : Type) : Type := option (TranscriptData I).

(** The second component of the pair getTranscripts returns: [None] is
    null, [Some None] is undefined, [Some (Some d)] is the data [d]. *)
Definition TranscriptsError (I : Type) : Type := option (option (TranscriptData I)).

Section Transcripts.

Context {I : Type}.
Variable env : Env (TranscriptBody I).
Variable number_text : Z -> string.

(** getJson<T>: the pair [data, null] is [inl], the pair [null, fetchError]
    is [inr].  The object thrown on a status other than 200 is caught by the
    [catch] of the same block.  A body null with the status 200 gives
    [inl None], the pair [null, null]. *)
Definition getJson (token apiUrl : string)
    : M (TranscriptBody I + JsonError (TranscriptBody I)) :=
  try_catch
    (apiResponse <- fetch env (mkRequest apiUrl
                                 [("Content-Type", "application/json");
                                  ("Authorization", token)] GET None) ;;
     data <- response_json apiResponse ;;
     if negb (status apiResponse =? 200) then ret (inr (FetchFailed apiUrl data))
     else ret (inl data))
    (fun fetchError => ret (inr (Raised fetchError))).

(** err.data of what getJson reports: the data of the thrown object, which
    is null when the body was, or the [undefined] of an exception. *)
Definition err_data (err : JsonError (TranscriptBody I)) : TranscriptsError I :=
  match err with
  | FetchFailed _ (Some d) => Some (Some d)
  | FetchFailed _ None => None
  | Raised _ => Some None
  end.

(** What reading err.data raises when [err] is null. *)
Definition data_of_null : Exn :=
  TypeError "Cannot read properties of null (reading 'data')".

(** transcriptData?.data[0]?.Transcripts, with [] for [undefined]: the test
    [length > 0] is false for both. *)
Definition first_transcripts (d : TranscriptData I) : list I :=
  match data d with
  | [] => []
  | p :: _ => Transcripts p
  end.

(** The loop [while (page)] of getTranscripts, which runs inside the [try]
    block, together with the [catch] of that block; [fuel] counts the turns.
    The result is the pair the function returns: the rows, and null or
    err.data.  When getJson gives [null, null] the loop throws null, and the
    [catch] block, reading err.data of it, raises a TypeError that leaves
    getTranscripts. *)
Fixpoint getTranscripts_loop (fuel : nat) (token user : string) (page : Z)
    (transcripts : list I)
    : M (list I * TranscriptsError I) :=
  match fuel with
  | O => diverge
  | S fuel' =>
      if page =? 0 then ret (transcripts, None)
      else
        let query := ("PageNumber=" ++ number_text page ++ "&UserId=" ++ user
                      ++ "&Language=en-US")%string in
        let apiUrl := (render (process_env_CSOD_API_HOST env)
                       ++ "/TranscriptAndTask/Transcript?" ++ query)%string in
        r <- getJson token apiUrl ;;
        match r with
        | inr transcriptError => ret ([], err_data transcriptError)
        | inl None => throw data_of_null
        | inl (Some transcriptData) =>
            if (0 <? List.length (first_transcripts transcriptData))%nat then
              getTranscripts_loop fuel' token user (page + 1)
                (transcripts ++ first_transcripts transcriptData)
            else ret (transcripts, None)
        end
  end.

Definition getTranscripts (fuel : nat) (token user : string)
    : M (list I * TranscriptsError I) :=
  getTranscripts_loop fuel token user 1 [].

End Transcripts.

End Index.

(** ** fetchUserTranscript.ts *)

Section Transcript.

Context {T : Type}.
Variable env : Env (ODataResponse T).

(** `${userId}` for an integer, and the encodeURI of the runtime. *)
Variable number_text : Z -> string.
Variable encodeURI : string -> string.

Definition fetchUserTranscript (fuel : nat) (userId : Z) : M (list T) :=
  let filters := ["is_assigned eq true";
                  "is_archive eq 0";
                  "user_lo_min_due_date ne null";
                  ("transc_user_id eq " ++ number_text userId)%string] in
  let queryVars := ["$count=true";
                    ("$filter=" ++ String.concat " and " filters)%string] in
  let query := encodeURI (String.concat "&" queryVars) in
  let apiUrl := ("/x/odata/api/views/vw_rpt_transcript?" ++ query)%string in
  paginatedFetchFromCSOD env fuel apiUrl None None.

End Transcript.

(** ** Further servers and predicates *)

(** An event of a walk that carries the token [tok]: a request with [tok]
    under Authorization, or a sleep; a request to the token endpoint is
    none. *)
Definition carries_token (tok : string) (ev : Event) : Prop :=
  match ev with
  | Requested r => header_value "Authorization" (req_headers r) = Some tok
  | Slept _ => True
  | TokenRequested => False
  end.

(** A server that answers every request with a page that has a next link. *)
Definition endless_server : Env Rows :=
  server (fun _ _ => http 200 "OK" (page ["a"] (Some "https://csod.example/x"))).

(** A full page of 1000 rows with a next link, then a connection that breaks. *)
Definition full_then_broken : Env Rows :=
  server (fun i _ =>
            match i with
            | O => http 200 "OK" (page (repeat "u" 1000)
                                       (Some "https://csod.example/x?page=2"))
            | _ => Rejected (NetworkFault "ECONNRESET")
            end).

(** A full page of 1000 rows without a next link. *)
Definition full_without_next : Env Rows :=
  server (fun _ _ => http 200 "OK" (page (repeat "u" 1000) None)).

(** The request getTranscripts of index.ts sends for a page number. *)
Definition transcript_request {I} (env : Env (Index.TranscriptBody I))
    (number_text : Z -> string) (tok user : string) (page : Z) : Request :=
  mkRequest (render (process_env_CSOD_API_HOST env)
             ++ "/TranscriptAndTask/Transcript?"
             ++ ("PageNumber=" ++ number_text page ++ "&UserId=" ++ user
                 ++ "&Language=en-US"))%string
            [("Content-Type", "application/json"); ("Authorization", tok)]
            GET None.

(** The pages [ds] all have transcripts and are served, in order, with status
    200 to the requests for the page numbers 1, 2, ... sent after [w]. *)
Definition serves_transcripts {I} (env : Env (Index.TranscriptBody I))
    (number_text : Z -> string) (tok user : string) (w : World)
    (ds : list (Index.TranscriptData I)) : Prop :=
  forall i d,
    nth_error ds i = Some d ->
    (exists resp,
       answered env (api_sent w + i)
                (transcript_request env number_text tok user (1 + Z.of_nat i))
                resp 200 (Some d))
    /\ Index.first_transcripts d <> [].

(** Servers for index.ts. *)
Definition user_server
    (answers : nat -> Request -> Reply (ODataResponse Index.UserDetails))
    : Env (ODataResponse Index.UserDetails) :=
  mkEnv (Some "https://csod.example") answers (fun _ => 0%N)
        (fun _ => bearer) (fun _ => 0%N) (fun _ _ => 0).

Definition users_too_many : Reply (ODataResponse Index.UserDetails) :=
  Resolved (mkResponse 429 "Too Many Requests" (inr (mkOData None [] None))).

(** One answer 429, then a connection that breaks. *)
Definition users_429_then_broken : Env (ODataResponse Index.UserDetails) :=
  user_server (fun i _ =>
                 match i with
                 | O => users_too_many
                 | _ => Rejected (NetworkFault "ECONNRESET")
                 end).

Definition users_always_429 : Env (ODataResponse Index.UserDetails) :=
  user_server (fun _ _ => users_too_many).

Definition transcript_server
    (answers : nat -> Request -> Reply (Index.TranscriptBody string))
    : Env (Index.TranscriptBody string) :=
  mkEnv (Some "https://csod.example") answers (fun _ => 0%N)
        (fun _ => bearer) (fun _ => 0%N) (fun _ _ => 0).

Definition transcripts_of (rows : list string) : Index.TranscriptData string :=
  Index.mkTranscriptData [Index.mkTranscriptPage "" rows ""].

(** A page of transcripts, then an answer 500. *)
Definition transcripts_then_500 : Env (Index.TranscriptBody string) :=
  transcript_server
    (fun i _ =>
       match i with
       | O => Resolved (mkResponse 200 "OK"
                                   (inr (Some (transcripts_of ["t1"; "t2"]))))
       | _ => Resolved (mkResponse 500 "Internal Server Error"
                                   (inr (Some (Index.mkTranscriptData []))))
       end).

(** Two pages of transcripts, then a page without any. *)
Definition transcripts_two_pages : Env (Index.TranscriptBody string) :=
  transcript_server
    (fun i _ =>
       match i with
       | O => Resolved (mkResponse 200 "OK"
                                   (inr (Some (transcripts_of ["t1"; "t2"]))))
       | S O => Resolved (mkResponse 200 "OK" (inr (Some (transcripts_of ["t3"]))))
       | _ => Resolved (mkResponse 200 "OK" (inr (Some (transcripts_of []))))
       end).

(** A page of transcripts, then the answer 200 with the body null. *)
Definition transcripts_then_null : Env (Index.TranscriptBody string) :=
  transcript_server
    (fun i _ =>
       match i with
       | O => Resolved (mkResponse 200 "OK"
                                   (inr (Some (transcripts_of ["t1"; "t2"]))))
       | _ => Resolved (mkResponse 200 "OK" (inr None))
       end).

(** * Properties *)

(** ** One attempt of apiFetch *)

Section Attempts.

Context {Body : Type}.
Variable env : Env Body.
Variables (uri : string) (headers : Headers) (payload : Payload)
          (method : ApiMethod).

Lemma attempted_unfold r delay w :
  attempted env r delay w
  = mkWorld (clock w + 1000 * Z.max 0 delay
             + Z.of_N (api_latency env (api_sent w)))
            (token w) (expiration w) (oauth_sent w) (S (api_sent w))
            ((trace w ++ [Slept delay]) ++ [Requested r]).
Proof.
  unfold attempted, fetch. cbn [sleep snd api_sent clock token expiration
                                oauth_sent trace].
  destruct (api_reply env (api_sent w) r); reflexivity.
Qed.

(** A call never ends in an exception, so it makes no difference that the
    recursive call of the source sits inside the [try] block. *)
Lemma apiFetch_rec_not_thrown fuel : forall delay w e w',
  apiFetch_rec env fuel uri headers payload method delay w <> (Thrown e, w').
Proof.
  induction fuel as [| fuel IH]; intros delay w e w'.
  - discriminate.
  - cbn [apiFetch_rec]. unfold bind, try_catch. cbn [sleep].
    destruct payload; cbn [stringify_payload]; unfold ret, throw;
      try discriminate;
      unfold fetch;
      (destruct (api_reply env _ _) as [e0 | resp]; [discriminate |]);
      unfold response_json;
      (destruct (json resp) as [e0 | b]; unfold throw, ret; [discriminate |]);
      cbn zeta;
      (destruct (status resp =? 429);
       [ destruct (delay <=? 60); [| discriminate]
       | destruct (status resp =? 200); discriminate ]);
      match goal with
      | |- context [apiFetch_rec env fuel ?u ?h ?p ?m ?d ?w0] =>
          specialize (IH d w0);
          destruct (apiFetch_rec env fuel u h p m d w0) as [[o | e1 | ] w1]
      end;
      try discriminate; exfalso; eapply IH; reflexivity.
Qed.

Lemma apiFetch_rec_unawaited fuel : forall delay w,
  apiFetch_rec env fuel uri headers payload method delay w
  = apiFetch_unawaited env fuel uri headers payload method delay w.
Proof.
  induction fuel as [| fuel IH]; intros delay w; [reflexivity |].
  cbn [apiFetch_rec apiFetch_unawaited]. unfold bind, try_catch. cbn [sleep].
  assert (Hs : (exists e, stringify_payload payload = throw e)
               \/ exists b, stringify_payload payload = ret b).
  { clear. destruct payload;
      [right; eexists; reflexivity .. | left; eexists; reflexivity]. }
  destruct Hs as [[e Hs] | [b0 Hs]]; rewrite Hs; unfold ret, throw;
    try reflexivity;
    unfold fetch;
    (destruct (api_reply env _ _) as [e0 | resp]; [reflexivity |]);
    unfold response_json;
    (destruct (json resp) as [e0 | b]; unfold throw, ret; [reflexivity |]);
    cbn zeta;
    (destruct (status resp =? 429);
     [ destruct (delay <=? 60); [| reflexivity]
     | destruct (status resp =? 200); reflexivity ]);
    rewrite <- IH;
    match goal with
    | |- context [apiFetch_rec env fuel ?u ?h ?p ?m ?d ?w0] =>
        pose proof (apiFetch_rec_not_thrown fuel d w0) as Hn;
        destruct (apiFetch_rec env fuel u h p m d w0) as [[o | e1 | ] w1]
    end;
    try reflexivity; exfalso; eapply Hn; reflexivity.
Qed.

Lemma attempt_unserializable fuel delay w e :
  payload = Unserializable e ->
  apiFetch_rec env (S fuel) uri headers payload method delay w
  = (Returned (Err (throwed_up e)), snd (sleep delay w)).
Proof.
  intros ->. reflexivity.
Qed.

Lemma payload_text_request b :
  payload_text payload = inr b ->
  stringify_payload payload = ret b
  /\ api_request uri headers method b = request_of uri headers payload method.
Proof.
  unfold request_of. destruct payload; intros H; inversion H; split; reflexivity.
Qed.

Lemma attempt_faulted fuel delay w b e :
  payload_text payload = inr b ->
  faulted env (api_sent w) (request_of uri headers payload method) e ->
  apiFetch_rec env (S fuel) uri headers payload method delay w
  = (Returned (Err (throwed_up e)),
     attempted env (request_of uri headers payload method) delay w).
Proof.
  intros Hp Hf. destruct (payload_text_request b Hp) as [Hs Hreq].
  rewrite attempted_unfold.
  cbn [apiFetch_rec]. unfold bind, try_catch.
  rewrite Hs. unfold ret at 1. cbn [sleep snd]. rewrite Hreq.
  unfold fetch. cbn [api_sent clock token expiration oauth_sent trace].
  destruct Hf as [Hr | [resp [Hr Hj]]]; rewrite Hr.
  - reflexivity.
  - unfold response_json. rewrite Hj. reflexivity.
Qed.

Lemma attempt_answered fuel delay w b resp c body :
  payload_text payload = inr b ->
  answered env (api_sent w) (request_of uri headers payload method) resp c body ->
  apiFetch_rec env (S fuel) uri headers payload method delay w
  = let w' := attempted env (request_of uri headers payload method) delay w in
    if c =? 429 then
      if delay <=? 60 then
        apiFetch_rec env fuel uri headers payload method (delay + 15) w'
      else (Returned (Err gave_up), w')
    else if c =? 200 then (Returned (Ok body), w')
    else (Returned (Err (bad_response c body resp)), w').
Proof.
  intros Hp (Hr & Hc & Hj). destruct (payload_text_request b Hp) as [Hs Hreq].
  rewrite attempted_unfold.
  cbn [apiFetch_rec]. unfold bind, try_catch.
  rewrite Hs. unfold ret at 1. cbn [sleep snd]. rewrite Hreq.
  unfold fetch. cbn [api_sent clock token expiration oauth_sent trace].
  rewrite Hr.
  unfold response_json. rewrite Hj. unfold ret at 1. rewrite Hc.
  cbn zeta.
  destruct (c =? 429).
  - destruct (delay <=? 60); [| reflexivity].
    match goal with
    | |- context [apiFetch_rec env fuel ?u ?h ?p ?m ?d ?w0] =>
        pose proof (apiFetch_rec_not_thrown fuel d w0) as Hn;
        destruct (apiFetch_rec env fuel u h p m d w0) as [[o | e1 | ] w1]
    end; try reflexivity.
    exfalso. eapply Hn. reflexivity.
  - destruct (c =? 200); reflexivity.
Qed.

Lemma retried_frame r k : forall delay w,
  token (retried env r k delay w) = token w
  /\ expiration (retried env r k delay w) = expiration w
  /\ oauth_sent (retried env r k delay w) = oauth_sent w
  /\ api_sent (retried env r k delay w) = (api_sent w + k)%nat
  /\ trace (retried env r k delay w) = trace w ++ attempts_trace r k delay.
Proof.
  induction k as [| k IH]; intros delay w; cbn [retried attempts_trace].
  - rewrite app_nil_r. repeat split; lia.
  - destruct (IH (delay + 15) (attempted env r delay w))
      as (Ht & He & Ho & Ha & Hl).
    rewrite Ht, He, Ho, Ha, Hl, attempted_unfold.
    cbn [token expiration oauth_sent api_sent trace].
    rewrite <- !app_assoc. repeat split; try reflexivity. lia.
Qed.

(** [k] answers 429 in a row, each at a delay of at most 60, are [k]
    recursive calls. *)
Lemma apiFetch_rec_retried b k : forall fuel delay w,
  payload_text payload = inr b ->
  (forall i, (i < k)%nat ->
     rate_limited env (api_sent w + i) (request_of uri headers payload method)) ->
  (forall i, (i < k)%nat -> delay + 15 * Z.of_nat i <= 60) ->
  apiFetch_rec env (k + fuel) uri headers payload method delay w
  = apiFetch_rec env fuel uri headers payload method
      (delay + 15 * Z.of_nat k)
      (retried env (request_of uri headers payload method) k delay w).
Proof.
  induction k as [| k IH]; intros fuel delay w Hp Hrl Hd.
  - cbn [retried Nat.add]. f_equal. lia.
  - destruct (Hrl 0%nat ltac:(lia)) as (resp & body & Hans).
    rewrite Nat.add_0_r in Hans.
    cbn [Nat.add retried].
    rewrite (attempt_answered (k + fuel) delay w b resp 429 body Hp Hans).
    cbn zeta. change (429 =? 429) with true. cbn iota.
    assert (Hle : (delay <=? 60) = true).
    { apply Z.leb_le. specialize (Hd 0%nat ltac:(lia)). lia. }
    rewrite Hle.
    rewrite IH; trivial.
    + f_equal. lia.
    + intros i Hi. rewrite attempted_unfold. cbn [api_sent].
      replace (S (api_sent w) + i)%nat with (api_sent w + S i)%nat by lia.
      apply Hrl. lia.
    + intros i Hi. specialize (Hd (S i) ltac:(lia)). lia.
Qed.

(** With [retry_fuel] or more, a call returns, and its outcome is the one
    the answer to its last request calls for. *)
Lemma apiFetch_rec_classified fuel : forall delay w,
  (Z.to_nat (75 - delay) < fuel)%nat ->
  exists o w',
    apiFetch_rec env fuel uri headers payload method delay w = (Returned o, w')
    /\ Classified env (request_of uri headers payload method) payload
                  (api_sent w') o
    /\ token w' = token w /\ expiration w' = expiration w
    /\ oauth_sent w' = oauth_sent w /\ (api_sent w <= api_sent w')%nat.
Proof.
  induction fuel as [| fuel IH]; intros delay w Hfuel; [lia |].
  set (r := request_of uri headers payload method).
  destruct (payload_text payload) as [e | b] eqn:Hp.
  - assert (Hu : payload = Unserializable e)
      by (destruct payload; inversion Hp; reflexivity).
    rewrite (attempt_unserializable fuel delay w e Hu).
    eexists _, _. split; [reflexivity |]. cbn [sleep snd api_sent token
      expiration oauth_sent].
    repeat split; auto. now apply class_payload.
  - destruct (api_reply env (api_sent w) r) as [e | resp] eqn:Hr.
    + rewrite (attempt_faulted fuel delay w b e Hp (or_introl Hr)).
      fold r. rewrite attempted_unfold.
      eexists _, _. split; [reflexivity |].
      cbn [api_sent token expiration oauth_sent].
      repeat split; auto.
      apply class_transport. left. exact Hr.
    + destruct (json resp) as [e | body] eqn:Hj.
      * assert (Hf : faulted env (api_sent w) r e)
          by (right; exists resp; auto).
        rewrite (attempt_faulted fuel delay w b e Hp Hf).
        fold r. rewrite attempted_unfold.
        eexists _, _. split; [reflexivity |].
        cbn [api_sent token expiration oauth_sent].
        repeat split; auto.
        apply class_transport. exact Hf.
      * assert (Ha : answered env (api_sent w) r resp (status resp) body)
          by (repeat split; auto).
        rewrite (attempt_answered fuel delay w b resp _ body Hp Ha).
        fold r. cbn zeta.
        destruct (status resp =? 429) eqn:H429.
        { apply Z.eqb_eq in H429.
          destruct (delay <=? 60) eqn:Hd.
          - apply Z.leb_le in Hd.
            destruct (IH (delay + 15) (attempted env r delay w))
              as (o & w' & Hrun & Hcl & Ht & He & Ho & Hs); [lia |].
            exists o, w'. rewrite Hrun.
            rewrite attempted_unfold in Ht, He, Ho, Hs.
            cbn [api_sent token expiration oauth_sent] in Ht, He, Ho, Hs.
            repeat split; auto. lia.
          - rewrite attempted_unfold.
            eexists _, _. split; [reflexivity |].
            cbn [api_sent token expiration oauth_sent].
            repeat split; auto.
            apply class_rate_limited. exists resp, body. auto. }
        { apply Z.eqb_neq in H429.
          rewrite attempted_unfold.
          destruct (status resp =? 200) eqn:H200.
          - apply Z.eqb_eq in H200.
            eexists _, _. split; [reflexivity |].
            cbn [api_sent token expiration oauth_sent].
            repeat split; auto.
            apply class_success with resp. repeat split; auto.
          - apply Z.eqb_neq in H200.
            eexists _, _. split; [reflexivity |].
            cbn [api_sent token expiration oauth_sent].
            repeat split; auto.
            apply class_upstream; auto. }
Qed.

Lemma attempts_trace_snoc r k : forall delay,
  attempts_trace r (S k) delay
  = attempts_trace r k delay
    ++ [Slept (delay + 15 * Z.of_nat k); Requested r].
Proof.
  induction k as [| k IH]; intros delay.
  - cbn. now rewrite Z.add_0_r.
  - change (attempts_trace r (S (S k)) delay)
      with (Slept delay :: Requested r :: attempts_trace r (S k) (delay + 15)).
    rewrite IH. cbn [attempts_trace app].
    do 5 f_equal. lia.
Qed.

(** A call whose first [k] requests are answered 429 within the delay bound
    goes on with the attempt at [delay + 15 * k]. *)
Lemma apiFetch_retried b k delay w :
  payload_text payload = inr b ->
  (forall i, (i < k)%nat ->
     rate_limited env (api_sent w + i) (request_of uri headers payload method)) ->
  (forall i, (i < k)%nat -> delay + 15 * Z.of_nat i <= 60) ->
  apiFetch env uri headers payload method delay w
  = apiFetch_rec env (S (Z.to_nat (75 - delay) - k)) uri headers payload method
      (delay + 15 * Z.of_nat k)
      (retried env (request_of uri headers payload method) k delay w).
Proof.
  intros Hp Hrl Hd. unfold apiFetch, retry_fuel.
  rewrite <- (apiFetch_rec_retried b k); trivial.
  f_equal. destruct k as [| k]; [lia |].
  specialize (Hd k ltac:(lia)). lia.
Qed.

(** The world after [k] retries and one more attempt. *)
Lemma last_attempt_frame k delay w :
  let r := request_of uri headers payload method in
  let w' := attempted env r (delay + 15 * Z.of_nat k) (retried env r k delay w) in
  api_sent w' = (api_sent w + S k)%nat
  /\ trace w' = trace w ++ attempts_trace r (S k) delay
  /\ token w' = token w /\ expiration w' = expiration w
  /\ oauth_sent w' = oauth_sent w.
Proof.
  cbn zeta. rewrite attempted_unfold.
  destruct (retried_frame (request_of uri headers payload method) k delay w)
    as (Ht & He & Ho & Ha & Hl).
  cbn [api_sent trace token expiration oauth_sent].
  rewrite Ht, He, Ho, Ha, Hl, attempts_trace_snoc, <- !app_assoc.
  repeat split; auto.
Qed.

(** [k] retries, then an answer that ends the call. *)
Lemma apiFetch_settled b k delay w resp c body :
  let r := request_of uri headers payload method in
  payload_text payload = inr b ->
  (forall i, (i < k)%nat -> rate_limited env (api_sent w + i) r) ->
  (forall i, (i < k)%nat -> delay + 15 * Z.of_nat i <= 60) ->
  answered env (api_sent w + k) r resp c body ->
  c <> 429 \/ 60 < delay + 15 * Z.of_nat k ->
  apiFetch env uri headers payload method delay w
  = (Returned (if c =? 429 then Err gave_up
               else if c =? 200 then Ok body
               else Err (bad_response c body resp)),
     attempted env r (delay + 15 * Z.of_nat k) (retried env r k delay w)).
Proof.
  intros r Hp Hrl Hd Hans Hc.
  rewrite (apiFetch_retried b k delay w Hp Hrl Hd). fold r.
  destruct (retried_frame r k delay w) as (_ & _ & _ & Hs & _).
  rewrite <- Hs in Hans.
  rewrite (attempt_answered _ _ _ b resp c body Hp Hans). fold r. cbn zeta.
  destruct (c =? 429) eqn:H429.
  - apply Z.eqb_eq in H429.
    destruct Hc as [Hc | Hc]; [contradiction |].
    apply Z.leb_gt in Hc. now rewrite Hc.
  - now destruct (c =? 200).
Qed.

(** [k] retries, then an exception. *)
Lemma apiFetch_faulted b k delay w e :
  let r := request_of uri headers payload method in
  payload_text payload = inr b ->
  (forall i, (i < k)%nat -> rate_limited env (api_sent w + i) r) ->
  (forall i, (i < k)%nat -> delay + 15 * Z.of_nat i <= 60) ->
  faulted env (api_sent w + k) r e ->
  apiFetch env uri headers payload method delay w
  = (Returned (Err (throwed_up e)),
     attempted env r (delay + 15 * Z.of_nat k) (retried env r k delay w)).
Proof.
  intros r Hp Hrl Hd Hf.
  rewrite (apiFetch_retried b k delay w Hp Hrl Hd). fold r.
  destruct (retried_frame r k delay w) as (_ & _ & _ & Hs & _).
  rewrite <- Hs in Hf.
  now rewrite (attempt_faulted _ _ _ b e Hp Hf).
Qed.

Lemma apiFetch_classified delay w :
  exists o w',
    apiFetch env uri headers payload method delay w = (Returned o, w')
    /\ Classified env (request_of uri headers payload method) payload
                  (api_sent w') o
    /\ token w' = token w /\ expiration w' = expiration w
    /\ oauth_sent w' = oauth_sent w /\ (api_sent w <= api_sent w')%nat.
Proof.
  unfold apiFetch, retry_fuel. apply apiFetch_rec_classified. lia.
Qed.

End Attempts.

(** ** Resilient fetch *)

(** C1, as the code has it.  When every request of a call with the default
    delay is answered 429, the call sleeps 0, 15, 30, 45, 60 and 75 seconds,
    sends the same request after each sleep, six in all, and returns the
    gave-up failure.  When the first [k <= 5] requests are answered 429 and
    the next one 200, the call returns the body of that answer. *)
Theorem apiFetch_429_backoff {Body} (env : Env Body) uri headers payload method
    w b :
  payload_text payload = inr b ->
  let r := request_of uri headers payload method in
  ((forall i, (i < 6)%nat -> rate_limited env (api_sent w + i) r) ->
   exists w',
     apiFetch env uri headers payload method 0 w = (Returned (Err gave_up), w')
     /\ api_sent w' = (api_sent w + 6)%nat
     /\ trace w' = trace w ++ [Slept 0; Requested r; Slept 15; Requested r;
                               Slept 30; Requested r; Slept 45; Requested r;
                               Slept 60; Requested r; Slept 75; Requested r])
  /\ (forall k resp body,
        (k <= 5)%nat ->
        (forall i, (i < k)%nat -> rate_limited env (api_sent w + i) r) ->
        answered env (api_sent w + k) r resp 200 body ->
        exists w',
          apiFetch env uri headers payload method 0 w = (Returned (Ok body), w')
          /\ api_sent w' = (api_sent w + S k)%nat
          /\ trace w' = trace w ++ attempts_trace r (S k) 0).
Proof.
  intros Hp r. split.
  - intros Hrl.
    destruct (Hrl 5%nat ltac:(lia)) as (resp & body & Hans).
    rewrite (apiFetch_settled env uri headers payload method b 5 0 w resp 429 body
               Hp); trivial.
    + destruct (last_attempt_frame env uri headers payload method 5 0 w)
        as (Ha & Hl & _).
      eexists. split; [reflexivity |]. split; [exact Ha | exact Hl].
    + intros i Hi. apply Hrl. lia.
    + intros i Hi. lia.
    + right. reflexivity.
  - intros k resp body Hk Hrl Hans.
    rewrite (apiFetch_settled env uri headers payload method b k 0 w resp 200 body
               Hp); trivial.
    + destruct (last_attempt_frame env uri headers payload method k 0 w)
        as (Ha & Hl & _).
      eexists. split; [reflexivity |]. split; [exact Ha | exact Hl].
    + intros i Hi. lia.
    + left. discriminate.
Qed.

Lemma always_429_rate_limited n r : rate_limited always_429 n r.
Proof.
  eexists _, _. repeat split; reflexivity.
Qed.

Lemma apiFetch_429_backoff_witness :
  (exists w',
     apiFetch always_429 "https://csod.example/x" [] Falsy (Some GET) 0 fresh
     = (Returned (Err gave_up), w')
     /\ api_sent w' = 6%nat
     /\ slept (trace w') = [0; 15; 30; 45; 60; 75])
  /\ (exists w',
        apiFetch (after_429 2 (http 200 "OK" (page ["a"] None)))
                 "https://csod.example/x" [] Falsy (Some GET) 0 fresh
        = (Returned (Ok (page ["a"] None)), w')
        /\ api_sent w' = 3%nat).
Proof.
  split.
  - destruct (proj1 (apiFetch_429_backoff always_429 "https://csod.example/x" []
                       Falsy (Some GET) fresh None eq_refl)) as (w' & Hrun & Hs & Ht).
    + intros i _. apply always_429_rate_limited.
    + exists w'. rewrite Ht. repeat split; trivial.
  - destruct (proj2 (apiFetch_429_backoff
                       (after_429 2 (http 200 "OK" (page ["a"] None)))
                       "https://csod.example/x" [] Falsy (Some GET) fresh None eq_refl)
                    2%nat (mkResponse 200 "OK" (inr (page ["a"] None)))
                    (page ["a"] None))
      as (w' & Hrun & Hs & _).
    + lia.
    + intros i Hi. destruct i as [| [| i]]; [| | lia];
        (eexists _, _; repeat split; reflexivity).
    + repeat split; reflexivity.
    + exists w'. split; trivial.
Defined.

(** C1 as stated fails: against a server that always answers 429 the call
    makes a sixth attempt, after sleeping 75 seconds. *)
Lemma apiFetch_429_sixth_attempt :
  let w' := snd (apiFetch always_429 "https://csod.example/x" [] Falsy
                          (Some GET) 0 fresh) in
  api_sent w' = 6%nat
  /\ ~ (api_sent w' <= 5)%nat
  /\ slept (trace w') = [0; 15; 30; 45; 60; 75]
  /\ slept (trace w') <> [0; 15; 30; 45; 60].
Proof.
  vm_compute. repeat split; try reflexivity; try discriminate.
  intros H. repeat apply le_S_n in H. inversion H.
Qed.

(** C3.  When the first answer that is not 429 has status 200, the call
    returns the parsed body of that answer; when it has any other status, the
    call returns the failure record with ok = true, that status as code and
    the parsed body.  In both cases that answer is to the last request the
    call sends. *)
Theorem apiFetch_first_settling_answer {Body} (env : Env Body) uri headers
    payload method delay w b k resp c body :
  let r := request_of uri headers payload method in
  payload_text payload = inr b ->
  (forall i, (i < k)%nat -> rate_limited env (api_sent w + i) r) ->
  (forall i, (i < k)%nat -> delay + 15 * Z.of_nat i <= 60) ->
  answered env (api_sent w + k) r resp c body ->
  c <> 429 ->
  exists w',
    apiFetch env uri headers payload method delay w
    = (Returned (if c =? 200 then Ok body
                 else Err (mkFetchResponse true (Upstream body) (Some c)
                                           (Some resp))), w')
    /\ api_sent w' = (api_sent w + S k)%nat
    /\ requested (trace w') = requested (trace w ++ attempts_trace r (S k) delay).
Proof.
  intros r Hp Hrl Hd Hans Hc.
  rewrite (apiFetch_settled env uri headers payload method b k delay w resp c body
             Hp Hrl Hd Hans (or_introl Hc)).
  destruct (last_attempt_frame env uri headers payload method k delay w)
    as (Ha & Hl & _).
  eexists. split; [| split; [exact Ha | now rewrite Hl]].
  apply Z.eqb_neq in Hc. now rewrite Hc.
Qed.

Lemma apiFetch_first_settling_answer_witness :
  exists w',
    apiFetch (after_429 1 (http 404 "Not Found" (page [] None)))
             "https://csod.example/x" [] Falsy (Some GET) 0 fresh
    = (Returned (Err (mkFetchResponse true (Upstream (page [] None)) (Some 404)
                        (Some (mkResponse 404 "Not Found" (inr (page [] None)))))),
       w')
    /\ api_sent w' = 2%nat.
Proof.
  destruct (apiFetch_first_settling_answer
              (after_429 1 (http 404 "Not Found" (page [] None)))
              "https://csod.example/x" [] Falsy (Some GET) 0 fresh None 1%nat
              (mkResponse 404 "Not Found" (inr (page [] None))) 404 (page [] None))
    as (w' & Hrun & Hs & _).
  - reflexivity.
  - intros i Hi. destruct i as [| i]; [| lia].
    eexists _, _. repeat split; reflexivity.
  - intros i Hi. destruct i as [| i]; [| lia]. cbn. lia.
  - repeat split; reflexivity.
  - discriminate.
  - exists w'. split; trivial.
Defined.

(** C8.  Every call returns a tagged outcome; none ends in an exception or
    fails to end.  An exception of the transport, thrown by fetch or by the
    parsing of the body at any attempt, or by the serialisation of the
    payload, comes back as the failure record
    { ok: false, code: 0, body: { message: 'fetch throwed up', error } }. *)
Theorem apiFetch_never_raises {Body} (env : Env Body) uri headers payload method
    delay w :
  let r := request_of uri headers payload method in
  (exists o w', apiFetch env uri headers payload method delay w = (Returned o, w'))
  /\ (forall b k e,
        payload_text payload = inr b ->
        (forall i, (i < k)%nat -> rate_limited env (api_sent w + i) r) ->
        (forall i, (i < k)%nat -> delay + 15 * Z.of_nat i <= 60) ->
        faulted env (api_sent w + k) r e ->
        exists w',
          apiFetch env uri headers payload method delay w
          = (Returned (Err (mkFetchResponse false
                              (Message "fetch throwed up" (Some e)) (Some 0) None)),
             w'))
  /\ (forall e,
        payload = Unserializable e ->
        exists w',
          apiFetch env uri headers payload method delay w
          = (Returned (Err (mkFetchResponse false
                              (Message "fetch throwed up" (Some e)) (Some 0) None)),
             w')).
Proof.
  intros r. split; [| split].
  - destruct (apiFetch_classified env uri headers payload method delay w)
      as (o & w' & Hrun & _).
    now exists o, w'.
  - intros b k e Hp Hrl Hd Hf.
    rewrite (apiFetch_faulted env uri headers payload method b k delay w e
               Hp Hrl Hd Hf).
    now eexists.
  - intros e He. unfold apiFetch, retry_fuel.
    rewrite (attempt_unserializable env uri headers payload method _ delay w e He).
    now eexists.
Qed.

Lemma apiFetch_never_raises_witness :
  exists w',
    apiFetch (server (fun _ _ => Rejected (NetworkFault "ECONNRESET")))
             "https://csod.example/x" [] Falsy (Some GET) 0 fresh
    = (Returned (Err (mkFetchResponse false
                        (Message "fetch throwed up"
                                 (Some (NetworkFault "ECONNRESET")))
                        (Some 0) None)), w').
Proof.
  apply (proj1 (proj2 (apiFetch_never_raises
                         (server (fun _ _ => Rejected (NetworkFault "ECONNRESET")))
                         "https://csod.example/x" [] Falsy (Some GET) 0 fresh))
           None 0%nat (NetworkFault "ECONNRESET")).
  - reflexivity.
  - intros i Hi. lia.
  - intros i Hi. lia.
  - left. reflexivity.
Defined.


(** ** Token cache *)

Section TokenCache.

Context {Body : Type}.
Variable env : Env Body.

Lemma bearer_value_truthy b : truthy (Some (bearer_value b)) = true.
Proof.
  unfold bearer_value, truthy.
  destruct (render (token_type b)); reflexivity.
Qed.

(** get(), case by case. *)
Lemma get_cases w :
  get env w
  = if must_issue (clock w) w then
      match oauth_reply env (oauth_sent w) with
      | OauthRejected e => (Thrown e, token_requested env w)
      | OauthResolved r =>
          match oauth_json r with
          | inl e => (Thrown e, token_requested env w)
          | inr b => (Returned (bearer_value b), token_stored env b w)
          end
      end
    else (Returned (render (token w)), w).
Proof.
  unfold get, new_Date, gets, bind. cbn iota beta.
  destruct (must_issue (clock w) w); [| reflexivity].
  unfold fetchAPIToken, bind, getOauthToken. cbn zeta.
  destruct (oauth_reply env (oauth_sent w)) as [e | r]; [reflexivity |].
  destruct (oauth_json r) as [e | b]; reflexivity.
Qed.

Lemma get_cached w :
  must_issue (clock w) w = false ->
  get env w = (Returned (render (token w)), w).
Proof.
  intros H. now rewrite get_cases, H.
Qed.

Lemma get_issued w b :
  must_issue (clock w) w = true ->
  issues env (oauth_sent w) b ->
  get env w = (Returned (bearer_value b), token_stored env b w).
Proof.
  intros H (r & Hr & Hj). now rewrite get_cases, H, Hr, Hj.
Qed.

Lemma get_thrown w e :
  must_issue (clock w) w = true ->
  issue_throws env (oauth_sent w) e ->
  get env w = (Thrown e, token_requested env w).
Proof.
  intros H [Hr | (r & Hr & Hj)]; rewrite get_cases, H, Hr; [| rewrite Hj];
    reflexivity.
Qed.

(** A stale cache always costs one request, whatever the answer. *)
Lemma get_stale_requests w :
  must_issue (clock w) w = true ->
  oauth_sent (snd (get env w)) = S (oauth_sent w).
Proof.
  intros H. rewrite get_cases, H.
  destruct (oauth_reply env (oauth_sent w)) as [e | r]; [reflexivity |].
  destruct (oauth_json r); reflexivity.
Qed.

Lemma must_issue_later now now' w :
  now <= now' -> must_issue now w = true -> must_issue now' w = true.
Proof.
  unfold must_issue. intros Hle H.
  destruct (negb (truthy (token w))); [reflexivity |]. cbn [orb] in *.
  destruct (expiration w) as [e |]; [| reflexivity].
  apply Z.gtb_lt in H. apply Z.gtb_lt. lia.
Qed.

(** Calls that start at or before the stored expiration hit the cache. *)
Lemma get_calls_cached gaps : forall w t e,
  token w = Some t -> truthy (Some t) = true ->
  expiration w = Some e ->
  clock w + Z.of_N (total gaps) <= e ->
  exists w',
    get_calls env gaps w = (Returned (repeat t (List.length gaps)), w')
    /\ token w' = token w /\ expiration w' = expiration w
    /\ oauth_sent w' = oauth_sent w.
Proof.
  induction gaps as [| gap gaps IH]; intros w t e Ht Htr He Hle.
  - exists w. repeat split; reflexivity.
  - cbn [total fold_right] in Hle. fold (total gaps) in Hle.
    cbn [get_calls]. unfold bind at 1. cbn [elapse].
    set (w1 := mkWorld _ _ _ _ _ _).
    unfold bind at 1. rewrite get_cached.
    + destruct (IH w1 t e) as (w' & Hrun & Ht' & He' & Ho'); trivial.
      { subst w1. cbn [clock]. lia. }
      unfold bind. rewrite Hrun. exists w'.
      subst w1. cbn [token expiration oauth_sent] in *.
      rewrite Ht. repeat split; congruence.
    + unfold must_issue. subst w1. cbn [token expiration clock].
      rewrite Ht, Htr, He. cbn [negb orb].
      rewrite Z.gtb_ltb. apply Z.ltb_ge. lia.
Qed.

(** Where the offset from UTC does not change, setSeconds moves the date
    15 000 ms forward. *)
Lemma plus_15_seconds_stable d :
  offset_stable env d -> plus_15_seconds env d = d + 15 * 1000.
Proof.
  unfold offset_stable, plus_15_seconds. cbn zeta. intros ->. lia.
Qed.

(** The bound on the expiration holds in the fresh world and is kept by the
    passing of time, and by get() where the offset from UTC does not
    change. *)
Lemma get_keeps_expires_within_ttl w :
  (forall d, offset_stable env d) ->
  expires_within_ttl w -> expires_within_ttl (snd (get env w)).
Proof.
  unfold expires_within_ttl. intros Hst Hw. rewrite get_cases.
  destruct (must_issue (clock w) w); [| exact Hw].
  destruct (oauth_reply env (oauth_sent w)) as [e | r];
    [| destruct (oauth_json r) as [e | b]];
    cbn [snd token_requested token_stored expiration clock];
    try (destruct (expiration w); [lia | exact I]).
  rewrite plus_15_seconds_stable by apply Hst. lia.
Qed.

Lemma elapse_keeps_expires_within_ttl ms w :
  expires_within_ttl w -> expires_within_ttl (snd (elapse ms w)).
Proof.
  unfold expires_within_ttl. cbn [elapse snd expiration clock].
  destruct (expiration w); [lia | trivial].
Qed.

End TokenCache.



(** The condition on the offset is needed.  On a host whose clocks go back
    one hour ten seconds after a token was issued, the expiration stored is
    3615 seconds ahead of the clock, and a call one minute later is served
    from the cache. *)
Lemma get_expiration_when_clocks_go_back :
  expiration (snd (get clocks_go_back fresh)) = Some 3615000
  /\ ~ offset_stable clocks_go_back 0
  /\ oauth_sent (snd (get_calls clocks_go_back [0; 60000]%N fresh)) = 1%nat.
Proof.
  split; [reflexivity |]. split; [| reflexivity].
  unfold offset_stable. cbn. discriminate.
Qed.


(** C5, as the code has it.  When the issuing request of a call ends in an
    exception (fetch rejects, or the body of the answer does not parse), the
    call ends in that exception, the cached token and expiration are what they
    were, and the next call, whenever it comes, sends an issuing request
    again.  (The status of the answer plays no part.) *)
Theorem get_issuance_exception {Body} (env : Env Body) w e :
  must_issue (clock w) w = true ->
  issue_throws env (oauth_sent w) e ->
  exists w',
    get env w = (Thrown e, w')
    /\ token w' = token w /\ expiration w' = expiration w
    /\ oauth_sent w' = S (oauth_sent w)
    /\ forall ms, oauth_sent (snd ((elapse ms ;;; get env) w')) = S (S (oauth_sent w)).
Proof.
  intros Hstale Hthrow.
  exists (token_requested env w).
  split; [now apply get_thrown |]. repeat split.
  intros ms. unfold bind. cbn [elapse].
  rewrite get_stale_requests; [reflexivity |].
  cbn [clock token_requested].
  apply must_issue_later with (now := clock w); [lia |].
  exact Hstale.
Qed.

Lemma get_issuance_exception_witness :
  exists w',
    get unreachable fresh = (Thrown (NetworkFault "ENOTFOUND"), w')
    /\ token w' = None /\ expiration w' = None
    /\ oauth_sent w' = 1%nat
    /\ forall ms, oauth_sent (snd ((elapse ms ;;; get unreachable) w')) = 2%nat.
Proof.
  apply (get_issuance_exception unreachable fresh (NetworkFault "ENOTFOUND")).
  - reflexivity.
  - left. reflexivity.
Defined.

(** C5 as stated fails for an issuing request that fails with a status: the
    token endpoint answers 401 with a JSON body, and the call returns
    "undefined undefined" and stores it for 15 seconds. *)
Lemma get_caches_refusal :
  request_failed (oauth_reply refusing 0) = true
  /\ fst (get refusing fresh) = Returned "undefined undefined"%string
  /\ token (snd (get refusing fresh)) = Some "undefined undefined"%string
  /\ expiration (snd (get refusing fresh)) = Some 15000
  /\ oauth_sent (snd (get refusing (snd (get refusing fresh)))) = 1%nat.
Proof.
  repeat split; reflexivity.
Qed.

(** ** Paginator *)

Section Paging.

Context {T : Type}.
Variable env : Env (ODataResponse T).

(** One call of the paginator once it has its token and its collection. *)
Lemma paginated_step fuel uri acc tok w :
  paginatedFetchFromCSOD env (S fuel) uri (Some acc) (Some tok) w
  = match apiFetch env uri [("Authorization", tok)] Falsy (Some GET) 0 w with
    | (Returned (Ok p), w') =>
        if negb (truthy (odata_nextLink p)) then (Returned (acc ++ value p), w')
        else paginatedFetchFromCSOD env fuel (render (odata_nextLink p))
               (Some (acc ++ value p)) (Some tok) w'
    | (Returned (Err _), w') => (Returned acc, w')
    | (Thrown e, w') => (Thrown e, w')
    | (OutOfFuel, w') => (OutOfFuel, w')
    end.
Proof.
  cbn [paginatedFetchFromCSOD token_or_get]. unfold bind at 1.
  unfold ret at 1. unfold bind at 1.
  destruct (apiFetch env uri _ Falsy (Some GET) 0 w) as [[[p | f] | e | ] w'];
    try reflexivity.
  cbn zeta. now destruct (negb (truthy (odata_nextLink p))).
Qed.

(** The first call: the token is fetched when none is passed, the host is
    put before the path when no collection is passed. *)
Lemma paginated_first fuel uripath collection token w tok w0 :
  token_or_get env token w = (Returned tok, w0) ->
  paginatedFetchFromCSOD env (S fuel) uripath collection token w
  = paginatedFetchFromCSOD env (S fuel) (first_uri env collection uripath)
      (Some (first_collection collection)) (Some tok) w0.
Proof.
  intros Htok. cbn [paginatedFetchFromCSOD]. unfold bind at 1. rewrite Htok.
  unfold bind at 2. cbn [token_or_get]. unfold ret at 2.
  destruct collection; reflexivity.
Qed.

Lemma paginated_walk tok uri w ps complete w' :
  Pages env tok uri w ps complete w' ->
  forall fuel acc,
    (List.length ps + (if complete then 0 else 1) <= fuel)%nat ->
    paginatedFetchFromCSOD env fuel uri (Some acc) (Some tok) w
    = (Returned (acc ++ List.concat (map value ps)), w').
Proof.
  induction 1 as [uri w p w' Hrun Hlast | uri w f w' Hrun
                 | uri w p link w' ps complete w'' Hrun Hlink Htruthy _ IH];
    intros fuel acc Hfuel; (destruct fuel as [| fuel]; [cbn in Hfuel; lia |]);
    rewrite paginated_step, Hrun.
  - rewrite Hlast. cbn. now rewrite app_nil_r.
  - cbn. now rewrite app_nil_r.
  - rewrite Hlink, Htruthy. cbn [negb render map List.concat].
    rewrite IH by (cbn in Hfuel; lia). now rewrite app_assoc.
Qed.

(** A page answered with status 200 at the first attempt. *)
Lemma apiFetch_page uri tok w resp p :
  answered env (api_sent w) (page_request uri tok) resp 200 p ->
  apiFetch env uri [("Authorization", tok)] Falsy (Some GET) 0 w
  = (Returned (Ok p), attempted env (page_request uri tok) 0 w).
Proof.
  intros Hans.
  rewrite (apiFetch_settled env uri [("Authorization", tok)] Falsy (Some GET)
             None 0 0 w resp 200 p); trivial.
  - intros i Hi. lia.
  - intros i Hi. lia.
  - now rewrite Nat.add_0_r.
  - left. discriminate.
Qed.

Lemma apiFetch_page_faulted uri tok w e :
  faulted env (api_sent w) (page_request uri tok) e ->
  apiFetch env uri [("Authorization", tok)] Falsy (Some GET) 0 w
  = (Returned (Err (throwed_up e)), attempted env (page_request uri tok) 0 w).
Proof.
  intros Hf.
  rewrite (apiFetch_faulted env uri [("Authorization", tok)] Falsy (Some GET)
             None 0 0 w e); trivial.
  - intros i Hi. lia.
  - intros i Hi. lia.
  - now rewrite Nat.add_0_r.
Qed.

Lemma api_sent_attempted r delay w :
  api_sent (attempted env r delay w) = S (api_sent w).
Proof.
  now rewrite attempted_unfold.
Qed.

End Paging.

(** C7.  Once the token is there, a walk that ends in a page without a next
    link returns what was passed as collection, followed by the rows of all
    pages in the order of the responses.  So P1 = ([a, b], next U2) and
    P2 = ([c], no next link) give [a, b, c], and a first page without rows and
    without next link gives the empty list; both are returned, not thrown. *)
Theorem paginated_all_pages {T} (env : Env (ODataResponse T)) fuel uripath
    collection token w tok w0 :
  token_or_get env token w = (Returned tok, w0) ->
  let uri := first_uri env collection uripath in
  (forall ps w',
     Pages env tok uri w0 ps true w' ->
     (List.length ps <= fuel)%nat ->
     paginatedFetchFromCSOD env fuel uripath collection token w
     = (Returned (first_collection collection ++ List.concat (map value ps)), w'))
  /\ (forall a b c U2 n1 n2 resp1 resp2,
        truthy (Some U2) = true ->
        (2 <= fuel)%nat ->
        answered env (api_sent w0) (page_request uri tok) resp1 200
                 (mkOData n1 [a; b] (Some U2)) ->
        answered env (S (api_sent w0)) (page_request U2 tok) resp2 200
                 (mkOData n2 [c] None) ->
        fst (paginatedFetchFromCSOD env fuel uripath collection token w)
        = Returned (first_collection collection ++ [a; b; c]))
  /\ (forall n resp,
        (1 <= fuel)%nat ->
        answered env (api_sent w0) (page_request uri tok) resp 200
                 (mkOData n [] None) ->
        fst (paginatedFetchFromCSOD env fuel uripath collection token w)
        = Returned (first_collection collection)).
Proof.
  intros Htok uri.
  assert (Hwalk : forall ps w',
            Pages env tok uri w0 ps true w' ->
            (List.length ps <= fuel)%nat ->
            paginatedFetchFromCSOD env fuel uripath collection token w
            = (Returned (first_collection collection ++ List.concat (map value ps)),
               w')).
  { intros ps w' Hp Hfuel.
    destruct fuel as [| fuel'].
    - inversion Hp; subst; cbn in Hfuel; lia.
    - rewrite (paginated_first env fuel' uripath collection token w tok w0 Htok).
      apply paginated_walk with (complete := true); [exact Hp | lia]. }
  split; [| split].
  - exact Hwalk.
  - intros a b c U2 n1 n2 resp1 resp2 HU2 Hfuel H1 H2.
    erewrite (Hwalk [mkOData n1 [a; b] (Some U2); mkOData n2 [c] None]).
    + reflexivity.
    + eapply pages_next.
      * apply apiFetch_page with (resp := resp1). exact H1.
      * reflexivity.
      * exact HU2.
      * apply pages_last; [| reflexivity].
        apply apiFetch_page with (resp := resp2). now rewrite api_sent_attempted.
    + cbn. lia.
  - intros n resp Hfuel H1.
    erewrite (Hwalk [mkOData n [] None]).
    + cbn. now rewrite app_nil_r.
    + apply pages_last; [| reflexivity].
      apply apiFetch_page with (resp := resp). exact H1.
    + cbn. lia.
Qed.

Lemma paginated_all_pages_witness :
  fst (paginatedFetchFromCSOD dataset 3 "/x" None None fresh)
  = Returned ["a"; "b"; "c"]%string.
Proof.
  apply (proj1 (proj2 (paginated_all_pages dataset 3 "/x" None None fresh
                         "Bearer abc" (snd (get dataset fresh)) eq_refl))
           "a"%string "b"%string "c"%string "https://csod.example/x?page=2"%string
           None None
           (mkResponse 200 "OK"
              (inr (page ["a"; "b"] (Some "https://csod.example/x?page=2"))))
           (mkResponse 200 "OK" (inr (page ["c"] None)))).
  - reflexivity.
  - lia.
  - repeat split; reflexivity.
  - repeat split; reflexivity.
Defined.

(** C6.  Once the token is there, a walk that is cut by a failure of the
    resilient fetch, whatever the failure, returns what was passed as
    collection, followed by the rows of the pages fetched before the failure;
    it is returned, not thrown.  So P1 = ([a], next U2) and an exception of the
    transport on U2 give [a]. *)
Theorem paginated_partial_on_failure {T} (env : Env (ODataResponse T)) fuel
    uripath collection token w tok w0 :
  token_or_get env token w = (Returned tok, w0) ->
  let uri := first_uri env collection uripath in
  (forall ps w',
     Pages env tok uri w0 ps false w' ->
     (List.length ps < fuel)%nat ->
     paginatedFetchFromCSOD env fuel uripath collection token w
     = (Returned (first_collection collection ++ List.concat (map value ps)), w'))
  /\ (forall a U2 n1 resp1 e,
        truthy (Some U2) = true ->
        (1 < fuel)%nat ->
        answered env (api_sent w0) (page_request uri tok) resp1 200
                 (mkOData n1 [a] (Some U2)) ->
        faulted env (S (api_sent w0)) (page_request U2 tok) e ->
        fst (paginatedFetchFromCSOD env fuel uripath collection token w)
        = Returned (first_collection collection ++ [a])).
Proof.
  intros Htok uri.
  assert (Hwalk : forall ps w',
            Pages env tok uri w0 ps false w' ->
            (List.length ps < fuel)%nat ->
            paginatedFetchFromCSOD env fuel uripath collection token w
            = (Returned (first_collection collection ++ List.concat (map value ps)),
               w')).
  { intros ps w' Hp Hfuel.
    destruct fuel as [| fuel']; [lia |].
    rewrite (paginated_first env fuel' uripath collection token w tok w0 Htok).
    apply paginated_walk with (complete := false); [exact Hp | lia]. }
  split.
  - exact Hwalk.
  - intros a U2 n1 resp1 e HU2 Hfuel H1 H2.
    erewrite (Hwalk [mkOData n1 [a] (Some U2)]).
    + reflexivity.
    + eapply pages_next.
      * apply apiFetch_page with (resp := resp1). exact H1.
      * reflexivity.
      * exact HU2.
      * eapply pages_cut. apply apiFetch_page_faulted.
        rewrite api_sent_attempted. exact H2.
    + cbn. lia.
Qed.

Lemma paginated_partial_on_failure_witness :
  fst (paginatedFetchFromCSOD broken_second 2 "/x" None None fresh)
  = Returned ["a"]%string.
Proof.
  apply (proj2 (paginated_partial_on_failure broken_second 2 "/x" None None fresh
                  "Bearer abc" (snd (get broken_second fresh)) eq_refl)
           "a"%string "https://csod.example/x?page=2"%string None
           (mkResponse 200 "OK"
              (inr (page ["a"] (Some "https://csod.example/x?page=2"))))
           (NetworkFault "ECONNRESET")).
  - reflexivity.
  - lia.
  - repeat split; reflexivity.
  - left. reflexivity.
Defined.

(** ** Repeating a walk *)

Section Repeat.

Context {T : Type}.
Variable env : Env (ODataResponse T).
Hypothesis by_uri : dataset_by_uri env.

(** Against a dataset keyed by URI the outcome of a call depends on the URI
    and the payload alone. *)
Lemma apiFetch_rec_by_uri fuel uri payload : forall delay h1 h2 m1 m2 w1 w2,
  fst (apiFetch_rec env fuel uri h1 payload m1 delay w1)
  = fst (apiFetch_rec env fuel uri h2 payload m2 delay w2).
Proof.
  induction fuel as [| fuel IH]; intros delay h1 h2 m1 m2 w1 w2;
    [reflexivity |].
  cbn [apiFetch_rec]. unfold bind, try_catch. cbn [sleep].
  destruct payload as [| text | e]; cbn [stringify_payload];
    unfold ret, throw; [| | reflexivity];
    unfold fetch; cbn [api_sent];
    match goal with
    | |- context [api_reply env ?n1 ?r1] =>
        match goal with
        | |- context [api_reply env ?n2 (api_request uri h2 m2 ?b)] =>
            rewrite (by_uri n1 n2 r1 (api_request uri h2 m2 b) eq_refl)
        end
    end;
    (destruct (api_reply env _ _) as [e | resp]; [reflexivity |]);
    unfold response_json;
    (destruct (json resp) as [e | b]; unfold throw, ret; [reflexivity |]);
    cbn zeta;
    (destruct (status resp =? 429);
     [ destruct (delay <=? 60); [| reflexivity]
     | destruct (status resp =? 200); reflexivity ]);
    match goal with
    | |- fst (match apiFetch_rec env fuel ?u ?ha ?p ?ma ?d ?wa with _ => _ end)
         = fst (match apiFetch_rec env fuel ?u ?hb ?p ?mb ?d ?wb with _ => _ end) =>
        pose proof (IH d ha hb ma mb wa wb) as Heq;
        pose proof (apiFetch_rec_not_thrown env u ha p ma fuel d wa) as Hna;
        pose proof (apiFetch_rec_not_thrown env u hb p mb fuel d wb) as Hnb;
        destruct (apiFetch_rec env fuel u ha p ma d wa) as [[oa | ea | ] wa'];
        destruct (apiFetch_rec env fuel u hb p mb d wb) as [[ob | eb | ] wb'];
        cbn [fst] in Heq |- *; try discriminate; try exact Heq;
        try (exfalso; eapply Hna; reflexivity);
        try (exfalso; eapply Hnb; reflexivity)
    end.
Qed.

Lemma paginated_by_uri fuel : forall uri acc tok1 tok2 w1 w2,
  fst (paginatedFetchFromCSOD env fuel uri (Some acc) (Some tok1) w1)
  = fst (paginatedFetchFromCSOD env fuel uri (Some acc) (Some tok2) w2).
Proof.
  induction fuel as [| fuel IH]; intros uri acc tok1 tok2 w1 w2;
    [reflexivity |].
  rewrite !paginated_step.
  pose proof (apiFetch_rec_by_uri (retry_fuel 0) uri Falsy 0
                [("Authorization", tok1)] [("Authorization", tok2)]
                (Some GET) (Some GET) w1 w2) as Heq.
  fold (apiFetch env uri [("Authorization", tok1)] Falsy (Some GET) 0 w1) in Heq.
  fold (apiFetch env uri [("Authorization", tok2)] Falsy (Some GET) 0 w2) in Heq.
  destruct (apiFetch env uri [("Authorization", tok1)] Falsy (Some GET) 0 w1)
    as [[[p1 | f1] | e1 | ] w1'];
    destruct (apiFetch env uri [("Authorization", tok2)] Falsy (Some GET) 0 w2)
      as [[[p2 | f2] | e2 | ] w2'];
    cbn [fst] in Heq |- *; try discriminate; try reflexivity;
    try (inversion Heq; subst; reflexivity).
  inversion Heq; subst p2.
  destruct (negb (truthy (odata_nextLink p1))); [reflexivity |]. apply IH.
Qed.

End Repeat.


Lemma dataset_is_by_uri : dataset_by_uri dataset.
Proof.
  intros n m r1 r2 Huri. cbn. now rewrite Huri.
Qed.


(** ** The two flavours *)

Section Flavours.

Context {T : Type}.
Variable env : Env (ODataResponse T).

Lemma serves_head w p ps r :
  serves env w (p :: ps) ->
  exists resp, answered env (api_sent w) r resp 200 p.
Proof.
  intros Hs. destruct (Hs 0%nat p r eq_refl) as [resp Ha].
  rewrite Nat.add_0_r in Ha. now exists resp.
Qed.

Lemma serves_tail w w1 p ps :
  serves env w (p :: ps) ->
  api_sent w1 = S (api_sent w) ->
  serves env w1 ps.
Proof.
  intros Hs Hsent i q r Hq.
  destruct (Hs (S i) q r Hq) as [resp Ha].
  exists resp. rewrite Hsent.
  now replace (S (api_sent w) + i)%nat with (api_sent w + S i)%nat by lia.
Qed.

(** Pages served in order, all but the last with a next link, are a
    complete walk of the recursive flavour. *)
Lemma serves_pages tok pre last : forall uri w,
  serves env w (pre ++ [last]) ->
  Forall (fun p => truthy (odata_nextLink p) = true) pre ->
  truthy (odata_nextLink last) = false ->
  exists w',
    Pages env tok uri w (pre ++ [last]) true w'
    /\ api_sent w' = (api_sent w + S (List.length pre))%nat.
Proof.
  induction pre as [| p pre IH]; intros uri w Hs Hpre Hlast; cbn [app] in *.
  - destruct (serves_head w last [] (page_request uri tok) Hs) as [resp Ha].
    eexists. split.
    + apply pages_last; [| exact Hlast].
      apply apiFetch_page with (resp := resp). exact Ha.
    + rewrite api_sent_attempted. cbn. lia.
  - destruct (serves_head w p _ (page_request uri tok) Hs) as [resp Ha].
    inversion Hpre as [| ? ? Hp Hpre']; subst.
    destruct (odata_nextLink p) as [link |] eqn:Hlink; [| discriminate].
    destruct (IH link (attempted env (page_request uri tok) 0 w))
      as (w' & Hwalk & Hsent); trivial.
    { apply (serves_tail w _ p); [exact Hs | apply api_sent_attempted]. }
    exists w'. split.
    + eapply pages_next; eauto.
      apply apiFetch_page with (resp := resp). exact Ha.
    + rewrite Hsent, api_sent_attempted. cbn. lia.
Qed.

(** One turn of the loop of getAllUsers: the status of the answer is not
    looked at. *)
Lemma getAllUsers_loop_step fuel tok uri acc w resp c p :
  let r := mkRequest uri [("Content-Type", "application/json");
                          ("Authorization", tok)] GET None in
  answered env (api_sent w) r resp c p ->
  getAllUsers_loop env (S fuel) tok (Some uri) acc w
  = if (List.length (value p) <? 1000)%nat
    then (Returned (acc ++ value p), snd (fetch env r w))
    else getAllUsers_loop env fuel tok (odata_nextLink p) (acc ++ value p)
           (snd (fetch env r w)).
Proof.
  intros r (Hr & _ & Hj).
  cbn [getAllUsers_loop fetch_any]. unfold bind at 1. fold r.
  unfold fetch. rewrite Hr. cbn [snd].
  unfold bind at 1. unfold response_json. rewrite Hj. unfold ret at 1.
  cbn zeta. now destruct (List.length (value p) <? 1000)%nat.
Qed.

Lemma getAllUsers_loop_serves tok pre last : forall fuel uri acc w,
  serves env w (pre ++ [last]) ->
  Forall (fun p => (1000 <= List.length (value p))%nat
                   /\ truthy (odata_nextLink p) = true) pre ->
  (List.length (value last) < 1000)%nat ->
  (List.length pre < fuel)%nat ->
  exists w',
    getAllUsers_loop env fuel tok (Some uri) acc w
    = (Returned (acc ++ List.concat (map value (pre ++ [last]))), w')
    /\ api_sent w' = (api_sent w + S (List.length pre))%nat.
Proof.
  induction pre as [| p pre IH]; intros fuel uri acc w Hs Hpre Hlast Hfuel;
    (destruct fuel as [| fuel]; [cbn in Hfuel; lia |]); cbn [app] in *.
  - destruct (serves_head w last [] (mkRequest uri
                [("Content-Type", "application/json"); ("Authorization", tok)]
                GET None) Hs) as [resp Ha].
    rewrite (getAllUsers_loop_step fuel tok uri acc w resp 200 last Ha).
    apply Nat.ltb_lt in Hlast. rewrite Hlast.
    eexists. split.
    + cbn [map List.concat]. now rewrite app_nil_r.
    + unfold fetch. destruct (api_reply env _ _); cbn; lia.
  - destruct (serves_head w p _ (mkRequest uri
                [("Content-Type", "application/json"); ("Authorization", tok)]
                GET None) Hs) as [resp Ha].
    rewrite (getAllUsers_loop_step fuel tok uri acc w resp 200 p Ha).
    inversion Hpre as [| ? ? [Hfull Hnext] Hpre']; subst.
    apply Nat.ltb_ge in Hfull. rewrite Hfull.
    destruct (odata_nextLink p) as [link |] eqn:Hlink; [| discriminate].
    match goal with
    | |- context [getAllUsers_loop env fuel tok (Some link) ?a ?w1] =>
        destruct (IH fuel link a w1) as (w' & Hrun & Hsent); trivial
    end.
    { apply (serves_tail w _ p); [exact Hs |].
      unfold fetch. destruct (api_reply env _ _); reflexivity. }
    { cbn in Hfuel. lia. }
    exists w'. split.
    + rewrite Hrun. cbn [map List.concat]. now rewrite app_assoc.
    + rewrite Hsent. unfold fetch. destruct (api_reply env _ _); cbn; lia.
Qed.

End Flavours.

(** C2, as the code has it.  Both flavours put the rows of the pages one after
    the other in the order of the responses, but they stop by different
    rules.  (a) The recursive flavour goes on while the page has a next link
    that is not empty and stops at the first page without one.  (b) The loop
    goes on while the page has 1000 rows or more and stops at the first page
    with fewer, without looking at its next link.  Each returns the rows of
    all pages up to the one it stops at, and sends one request per page. *)
Theorem flavours_stop_rules {T} (env : Env (ODataResponse T)) fuel tok w pre last :
  serves env w (pre ++ [last]) ->
  (List.length pre < fuel)%nat ->
  (forall uripath,
     Forall (fun p => truthy (odata_nextLink p) = true) pre ->
     truthy (odata_nextLink last) = false ->
     exists w',
       paginatedFetchFromCSOD env fuel uripath None (Some tok) w
       = (Returned (List.concat (map value (pre ++ [last]))), w')
       /\ api_sent w' = (api_sent w + S (List.length pre))%nat)
  /\ (Forall (fun p => (1000 <= List.length (value p))%nat
                       /\ truthy (odata_nextLink p) = true) pre ->
      (List.length (value last) < 1000)%nat ->
      exists w',
        getAllUsers env fuel tok w
        = (Returned (List.concat (map value (pre ++ [last]))), w')
        /\ api_sent w' = (api_sent w + S (List.length pre))%nat).
Proof.
  intros Hs Hfuel. split.
  - intros uripath Hpre Hlast.
    destruct (serves_pages env tok pre last (first_uri env None uripath) w
                Hs Hpre Hlast) as (w' & Hwalk & Hsent).
    exists w'. split; [| exact Hsent].
    destruct fuel as [| fuel']; [lia |].
    rewrite (paginated_first env fuel' uripath None (Some tok) w tok w eq_refl).
    rewrite (paginated_walk env tok _ w _ true w' Hwalk).
    + reflexivity.
    + rewrite length_app. cbn. lia.
  - intros Hpre Hlast. unfold getAllUsers.
    exact (getAllUsers_loop_serves env tok pre last fuel _ [] w Hs Hpre Hlast Hfuel).
Qed.

Lemma full_then_short_serves :
  serves full_then_short fresh
    ([page (repeat "u" 1000) (Some "https://csod.example/x?page=2")]
     ++ [page ["v"] None]).
Proof.
  intros i p r Hp.
  destruct i as [| [| i]]; cbn in Hp;
    [inversion Hp; subst; eexists; repeat split; reflexivity ..|].
  destruct i; discriminate.
Qed.

Lemma flavours_stop_rules_witness :
  (exists w',
     paginatedFetchFromCSOD full_then_short 2 "/x" None (Some "Bearer abc") fresh
     = (Returned (List.concat
                    (map value
                       ([page (repeat "u" 1000)
                              (Some "https://csod.example/x?page=2")]
                        ++ [page ["v"] None]))), w')
     /\ api_sent w' = 2%nat)
  /\ (exists w',
        getAllUsers full_then_short 2 "Bearer abc" fresh
        = (Returned (List.concat
                       (map value
                          ([page (repeat "u" 1000)
                                 (Some "https://csod.example/x?page=2")]
                           ++ [page ["v"] None]))), w')
        /\ api_sent w' = 2%nat).
Proof.
  destruct (flavours_stop_rules full_then_short 2 "Bearer abc" fresh
              [page (repeat "u" 1000) (Some "https://csod.example/x?page=2")]
              (page ["v"] None) full_then_short_serves ltac:(cbn; lia))
    as [Hrec Hloop].
  split.
  - apply (Hrec "/x"%string).
    + constructor; [reflexivity | constructor].
    + reflexivity.
  - apply Hloop.
    + constructor; [| constructor]. split; [| reflexivity].
      cbn [value page]. rewrite repeat_length. lia.
    + cbn. lia.
Defined.

(** C2 as stated fails: of two pages, the first with one row and a next link,
    the recursive flavour returns both, and the loop returns the first only:
    it stops at a response that carries a next link, after one request. *)
Lemma flavours_disagree :
  fst (paginatedFetchFromCSOD two_pages 2 "/x" None (Some "Bearer abc") fresh)
  = Returned ["a"; "b"]%string
  /\ fst (getAllUsers two_pages 2 "Bearer abc" fresh) = Returned ["a"]%string
  /\ api_sent (snd (getAllUsers two_pages 2 "Bearer abc" fresh)) = 1%nat
  /\ fst (paginatedFetchFromCSOD two_pages 2 "/x" None (Some "Bearer abc") fresh)
     <> fst (getAllUsers two_pages 2 "Bearer abc" fresh).
Proof.
  repeat split; try reflexivity. discriminate.
Qed.


(** * Further properties *)

(** ** The shape of a call of apiFetch *)

Section Shape.

Context {Body : Type}.
Variable env : Env Body.
Variables (uri : string) (headers : Headers) (payload : Payload)
          (method : ApiMethod).

(** Whatever the server answers, a call with a payload that serialises is
    some number [k >= 1] of attempts in a row, and 15 * k is bounded by the
    distance of [delay] from 90. *)
Lemma apiFetch_rec_attempts b fuel : forall delay w,
  payload_text payload = inr b ->
  (Z.to_nat (75 - delay) < fuel)%nat ->
  exists k,
    (1 <= k)%nat
    /\ 15 * Z.of_nat k <= Z.max 15 (90 - delay)
    /\ snd (apiFetch_rec env fuel uri headers payload method delay w)
       = retried env (request_of uri headers payload method) k delay w.
Proof.
  set (r := request_of uri headers payload method).
  induction fuel as [| fuel IH]; intros delay w Hp Hfuel; [lia |].
  assert (Hone : exists k,
             (1 <= k)%nat /\ 15 * Z.of_nat k <= Z.max 15 (90 - delay)
             /\ attempted env r delay w = retried env r k delay w).
  { exists 1%nat. cbn [retried]. repeat split; lia. }
  destruct (api_reply env (api_sent w) r) as [e | resp] eqn:Hr.
  - rewrite (attempt_faulted env uri headers payload method fuel delay w b e Hp
               (or_introl Hr)).
    exact Hone.
  - destruct (json resp) as [e | body] eqn:Hj.
    + assert (Hf : faulted env (api_sent w) r e) by (right; exists resp; auto).
      rewrite (attempt_faulted env uri headers payload method fuel delay w b e Hp Hf).
      exact Hone.
    + assert (Ha : answered env (api_sent w) r resp (status resp) body)
        by (repeat split; auto).
      rewrite (attempt_answered env uri headers payload method fuel delay w b resp
                 _ body Hp Ha).
      fold r. cbn zeta.
      destruct (status resp =? 429); [| destruct (status resp =? 200); exact Hone].
      destruct (delay <=? 60) eqn:Hd; [| exact Hone].
      apply Z.leb_le in Hd.
      destruct (IH (delay + 15) (attempted env r delay w) Hp ltac:(lia))
        as (k & Hk & Hbound & Hw).
      exists (S k). cbn [retried]. repeat split; [lia | lia | exact Hw].
Qed.

End Shape.

Lemma header_value_set_header k k' v h :
  header_value k (set_header k' v h)
  = if String.eqb k k' then Some v else header_value k h.
Proof.
  induction h as [| [k0 v0] h IH]; cbn [set_header header_value].
  - reflexivity.
  - destruct (String.eqb k' k0) eqn:H0; cbn [header_value].
    + apply String.eqb_eq in H0. subst k0.
      now destruct (String.eqb k k').
    + rewrite IH. destruct (String.eqb k k0) eqn:H1; [| reflexivity].
      apply String.eqb_eq in H1. subst k0.
      rewrite String.eqb_sym in H0. now rewrite H0.
Qed.

Lemma header_value_app k h1 h2 :
  header_value k (h1 ++ h2)
  = match header_value k h1 with
    | Some v => Some v
    | None => header_value k h2
    end.
Proof.
  induction h1 as [| [k0 v0] h1 IH]; cbn [app header_value]; [reflexivity |].
  now destruct (String.eqb k k0).
Qed.

(** In the object [{ ...base, ...extra }] a key holds what the last pair
    of [extra] with that key gives it, and otherwise what it holds in
    [base]. *)
Theorem spread_header_value k base extra :
  header_value k (spread base extra)
  = match header_value k (rev extra) with
    | Some v => Some v
    | None => header_value k base
    end.
Proof.
  unfold spread. revert base.
  induction extra as [| [k0 v0] extra IH]; intros base; cbn [fold_left rev].
  - reflexivity.
  - rewrite IH, header_value_app, header_value_set_header.
    cbn [fst snd header_value].
    destruct (header_value k (rev extra)); [reflexivity |].
    now destruct (String.eqb k k0).
Qed.

(** X1.  The request of apiFetch carries, under every key, the value the
    caller gave it last; the Content-Type is application/json unless the
    caller gave one, and no other key is added. *)
Theorem api_request_header_value uri headers method b k :
  header_value k (req_headers (api_request uri headers method b))
  = match header_value k (rev headers) with
    | Some v => Some v
    | None => if String.eqb k "Content-Type" then Some "application/json"%string
              else None
    end.
Proof.
  unfold api_request. cbn [req_headers]. rewrite spread_header_value.
  reflexivity.
Qed.

(** X2.  Whatever the server answers, one call of apiFetch sleeps [delay],
    [delay + 15], ... and sends the same request after each sleep; it sends at
    least one request, at most six when the delay it starts with is not
    negative, and exactly one when that delay is above 60.  When the payload
    does not serialise it sleeps once and sends nothing. *)
Theorem apiFetch_attempts_bounded {Body} (env : Env Body) uri headers payload
    method delay w :
  let r := request_of uri headers payload method in
  let w' := snd (apiFetch env uri headers payload method delay w) in
  match payload with
  | Unserializable _ =>
      api_sent w' = api_sent w /\ trace w' = trace w ++ [Slept delay]
  | _ =>
      exists k,
        (1 <= k)%nat
        /\ (0 <= delay -> (k <= 6)%nat)
        /\ (60 < delay -> k = 1%nat)
        /\ api_sent w' = (api_sent w + k)%nat
        /\ trace w' = trace w ++ attempts_trace r k delay
  end.
Proof.
  intros r w'.
  assert (Hser : forall b, payload_text payload = inr b ->
            exists k,
              (1 <= k)%nat
              /\ (0 <= delay -> (k <= 6)%nat)
              /\ (60 < delay -> k = 1%nat)
              /\ api_sent w' = (api_sent w + k)%nat
              /\ trace w' = trace w ++ attempts_trace r k delay).
  { intros b Hp.
    destruct (apiFetch_rec_attempts env uri headers payload method b
                (retry_fuel delay) delay w Hp) as (k & Hk & Hbound & Hw).
    { unfold retry_fuel. lia. }
    destruct (retried_frame env r k delay w) as (_ & _ & _ & Hs & Ht).
    exists k. subst w'. unfold apiFetch. rewrite Hw.
    repeat split; trivial; lia. }
  destruct payload as [| text | e].
  - exact (Hser None eq_refl).
  - exact (Hser (Some text) eq_refl).
  - subst w'. unfold apiFetch, retry_fuel.
    rewrite (attempt_unserializable env uri headers (Unserializable e) method _
               delay w e eq_refl).
    split; reflexivity.
Qed.

Lemma apiFetch_attempts_bounded_witness :
  exists k,
    (1 <= k)%nat /\ (k <= 6)%nat
    /\ api_sent (snd (apiFetch (after_429 3 (http 500 "Internal Server Error"
                                               (page [] None)))
                               "https://csod.example/x" [] Falsy (Some GET) 0
                               fresh))
       = k.
Proof.
  destruct (apiFetch_attempts_bounded
              (after_429 3 (http 500 "Internal Server Error" (page [] None)))
              "https://csod.example/x" [] Falsy (Some GET) 0 fresh)
    as (k & Hk & H6 & _ & Hs & _).
  exists k. repeat split; [exact Hk | apply H6; lia | exact Hs].
Defined.

(** X3.  Neither apiFetch nor syncToEndpoint, nor fetchFromCSOD when it is given a
    token (the empty string too), reads or writes the token cache or sends a
    request to the token endpoint; each of them returns an outcome. *)
Theorem fetch_leaves_token_cache {Body} (env : Env Body) sync_token uri headers
    payload method delay t w :
  let untouched (w' : World) :=
    token w' = token w /\ expiration w' = expiration w
    /\ oauth_sent w' = oauth_sent w in
  (exists o w',
     apiFetch env uri headers payload method delay w = (Returned o, w')
     /\ untouched w')
  /\ (exists o w',
        syncToEndpoint env sync_token uri payload method w = (Returned o, w')
        /\ untouched w')
  /\ (exists o w',
        fetchFromCSOD env uri method payload (Some t) w = (Returned o, w')
        /\ untouched w').
Proof.
  cbn zeta. split; [| split].
  - destruct (apiFetch_classified env uri headers payload method delay w)
      as (o & w' & Hrun & _ & Ht & He & Ho & _).
    exists o, w'. auto.
  - unfold syncToEndpoint.
    destruct (apiFetch_classified env uri [("Auth-Token", sync_token)] payload
                (Some (default_method method)) 0 w)
      as (o & w' & Hrun & _ & Ht & He & Ho & _).
    exists o, w'. auto.
  - unfold fetchFromCSOD, bind, ret.
    destruct (apiFetch_classified env (CSOD_API_HOST env ++ uri)%string
                [("Authorization", t)] payload method 0 w)
      as (o & w' & Hrun & _ & Ht & He & Ho & _).
    exists o, w'. auto.
Qed.

(** X4.  fetchFromCSOD without a token.  When the cache holds a token that has not
    expired, the call is the call with that token.  When the cache is empty or
    stale and the issuing request ends in an exception, the call ends in that
    exception, unlike apiFetch, and nothing is sent to the API. *)
Theorem fetchFromCSOD_without_token {Body} (env : Env Body) uripath method
    payload w :
  (must_issue (clock w) w = false ->
   fetchFromCSOD env uripath method payload None w
   = fetchFromCSOD env uripath method payload (Some (render (token w))) w)
  /\ (forall e,
        must_issue (clock w) w = true ->
        issue_throws env (oauth_sent w) e ->
        exists w',
          fetchFromCSOD env uripath method payload None w = (Thrown e, w')
          /\ api_sent w' = api_sent w
          /\ trace w' = trace w ++ [TokenRequested]).
Proof.
  split.
  - intros Hfresh. unfold fetchFromCSOD, bind, getCSODToken.
    now rewrite (get_cached env w Hfresh).
  - intros e Hstale Hthrow. unfold fetchFromCSOD, bind, getCSODToken.
    rewrite (get_thrown env w e Hstale Hthrow).
    eexists. split; [reflexivity |]. split; reflexivity.
Qed.

Lemma fetchFromCSOD_without_token_witness :
  (fetchFromCSOD dataset "/x" (Some GET) Falsy None (snd (get dataset fresh))
   = fetchFromCSOD dataset "/x" (Some GET) Falsy (Some "Bearer abc")
       (snd (get dataset fresh)))
  /\ (exists w',
        fetchFromCSOD unreachable "/x" (Some GET) Falsy None fresh
        = (Thrown (NetworkFault "ENOTFOUND"), w')
        /\ api_sent w' = 0%nat
        /\ trace w' = [TokenRequested]).
Proof.
  split.
  - apply (proj1 (fetchFromCSOD_without_token dataset "/x" (Some GET) Falsy
                    (snd (get dataset fresh)))).
    reflexivity.
  - apply (proj2 (fetchFromCSOD_without_token unreachable "/x" (Some GET) Falsy
                    fresh) (NetworkFault "ENOTFOUND")).
    + reflexivity.
    + left. reflexivity.
Defined.

(** ** More on the paginator *)

Section PagingMore.

Context {T : Type}.
Variable env : Env (ODataResponse T).

Lemma page_request_carries uri tok :
  header_value "Authorization" (req_headers (page_request uri tok)) = Some tok.
Proof.
  reflexivity.
Qed.

Lemma attempts_trace_carries uri tok k : forall delay,
  Forall (carries_token tok) (attempts_trace (page_request uri tok) k delay).
Proof.
  induction k as [| k IH]; intros delay; cbn [attempts_trace].
  - constructor.
  - constructor; [exact I |]. constructor; [apply page_request_carries | apply IH].
Qed.

(** The fetch of one page: it returns, leaves the token cache alone, and adds
    to the trace between one and six attempts at the page's request. *)
Lemma apiFetch_page_run uri tok w :
  exists o k w',
    apiFetch env uri [("Authorization", tok)] Falsy (Some GET) 0 w = (Returned o, w')
    /\ token w' = token w /\ expiration w' = expiration w
    /\ oauth_sent w' = oauth_sent w
    /\ (1 <= k <= 6)%nat
    /\ api_sent w' = (api_sent w + k)%nat
    /\ trace w' = trace w ++ attempts_trace (page_request uri tok) k 0.
Proof.
  destruct (apiFetch_classified env uri [("Authorization", tok)] Falsy (Some GET) 0 w)
    as (o & w' & Hrun & _ & Ht & He & Ho & _).
  destruct (apiFetch_rec_attempts env uri [("Authorization", tok)] Falsy (Some GET)
              None (retry_fuel 0) 0 w eq_refl) as (k & Hk & Hbound & Hw).
  { unfold retry_fuel. lia. }
  fold (apiFetch env uri [("Authorization", tok)] Falsy (Some GET) 0 w) in Hw.
  rewrite Hrun in Hw. cbn [snd] in Hw.
  destruct (retried_frame env (page_request uri tok) k 0 w) as (_ & _ & _ & Hs & Hl).
  subst w'. exists o, k, (retried env (page_request uri tok) k 0 w).
  repeat split; trivial; lia.
Qed.

Lemma paginated_walk_invariant fuel : forall uri acc tok w,
  exists w' added,
    ((exists more,
        paginatedFetchFromCSOD env fuel uri (Some acc) (Some tok) w
        = (Returned (acc ++ more), w'))
     \/ paginatedFetchFromCSOD env fuel uri (Some acc) (Some tok) w = (OutOfFuel, w'))
    /\ token w' = token w /\ expiration w' = expiration w
    /\ oauth_sent w' = oauth_sent w
    /\ trace w' = trace w ++ added
    /\ Forall (carries_token tok) added.
Proof.
  induction fuel as [| fuel IH]; intros uri acc tok w.
  - exists w, []. rewrite app_nil_r. repeat split; auto.
  - rewrite paginated_step.
    destruct (apiFetch_page_run uri tok w)
      as (o & k & w1 & Hrun & Ht & He & Ho & _ & _ & Hl).
    rewrite Hrun.
    pose proof (attempts_trace_carries uri tok k 0) as Hc.
    destruct o as [p | f].
    + destruct (negb (truthy (odata_nextLink p))).
      * exists w1, (attempts_trace (page_request uri tok) k 0).
        repeat split; trivial. left. now exists (value p).
      * destruct (IH (render (odata_nextLink p)) (acc ++ value p) tok w1)
          as (w' & added & Hres & Ht' & He' & Ho' & Hl' & Hc').
        exists w', (attempts_trace (page_request uri tok) k 0 ++ added).
        repeat split; try congruence.
        -- destruct Hres as [[more Hres] | Hres]; [left | right; exact Hres].
           exists (value p ++ more). now rewrite app_assoc.
        -- now rewrite Hl', Hl, app_assoc.
        -- apply Forall_app. split; assumption.
    + exists w1, (attempts_trace (page_request uri tok) k 0).
      repeat split; trivial. left. exists []. now rewrite app_nil_r.
Qed.

Lemma paginated_endless_run fuel : forall uri acc tok w,
  (forall n r, exists resp p link,
      answered env n r resp 200 p /\ odata_nextLink p = Some link
      /\ truthy (Some link) = true) ->
  exists w',
    paginatedFetchFromCSOD env fuel uri (Some acc) (Some tok) w = (OutOfFuel, w')
    /\ api_sent w' = (api_sent w + fuel)%nat.
Proof.
  induction fuel as [| fuel IH]; intros uri acc tok w Hend.
  - exists w. split; [reflexivity | lia].
  - destruct (Hend (api_sent w) (page_request uri tok))
      as (resp & p & link & Ha & Hlink & Htruthy).
    rewrite paginated_step, (apiFetch_page env uri tok w resp p Ha).
    rewrite Hlink, Htruthy. cbn [negb render].
    destruct (IH link (acc ++ value p) tok
                (attempted env (page_request uri tok) 0 w) Hend)
      as (w' & Hrun & Hs).
    exists w'. split; [exact Hrun |].
    rewrite Hs, api_sent_attempted. lia.
Qed.

(** A walk that makes at least one call begins with the sleep of 0 seconds
    and the request for its first page. *)
Lemma paginated_walk_starts fuel uri acc tok w :
  exists rest,
    trace (snd (paginatedFetchFromCSOD env (S fuel) uri (Some acc) (Some tok) w))
    = trace w ++ Slept 0 :: Requested (page_request uri tok) :: rest
    /\ Forall (carries_token tok) rest
    /\ oauth_sent (snd (paginatedFetchFromCSOD env (S fuel) uri (Some acc)
                          (Some tok) w))
       = oauth_sent w.
Proof.
  rewrite paginated_step.
  destruct (apiFetch_page_run uri tok w)
    as (o & k & w1 & Hrun & _ & _ & Ho & [Hk _] & _ & Hl).
  rewrite Hrun.
  destruct k as [| k]; [lia |]. cbn [attempts_trace] in Hl.
  pose proof (attempts_trace_carries uri tok k (0 + 15)) as Hc.
  assert (Hstop : exists rest,
            trace w1 = trace w ++ Slept 0 :: Requested (page_request uri tok) :: rest
            /\ Forall (carries_token tok) rest /\ oauth_sent w1 = oauth_sent w).
  { eexists. split; [exact Hl |]. split; [exact Hc | exact Ho]. }
  destruct o as [p | f]; [| exact Hstop].
  destruct (negb (truthy (odata_nextLink p))); [exact Hstop |].
  destruct (paginated_walk_invariant fuel (render (odata_nextLink p))
              (acc ++ value p) tok w1)
    as (w' & added & Hres & _ & _ & Ho' & Hl' & Hc').
  assert (Hw' : snd (paginatedFetchFromCSOD env fuel (render (odata_nextLink p))
                       (Some (acc ++ value p)) (Some tok) w1) = w').
  { destruct Hres as [[more Hres] | Hres]; now rewrite Hres. }
  rewrite Hw'.
  exists (attempts_trace (page_request uri tok) k (0 + 15) ++ added).
  split; [| split].
  - rewrite Hl', Hl, <- app_assoc. reflexivity.
  - apply Forall_app. split; assumption.
  - congruence.
Qed.

End PagingMore.

(** X6.  A walk of paginatedFetchFromCSOD that was given a token leaves the
    token cache alone and sends nothing to the token endpoint, however long it
    takes: the token is not renewed during a walk, and every request of the
    walk carries the token it started with.  A list the walk returns begins
    with the collection it was given. *)
Theorem paginated_keeps_its_token {T} (env : Env (ODataResponse T)) fuel uripath
    collection tok w :
  let run := paginatedFetchFromCSOD env fuel uripath collection (Some tok) w in
  exists added,
    token (snd run) = token w /\ expiration (snd run) = expiration w
    /\ oauth_sent (snd run) = oauth_sent w
    /\ trace (snd run) = trace w ++ added
    /\ Forall (carries_token tok) added
    /\ (forall rows,
          fst run = Returned rows ->
          exists more, rows = first_collection collection ++ more).
Proof.
  cbn zeta. destruct fuel as [| fuel].
  - exists []. rewrite app_nil_r. repeat split; auto. discriminate.
  - rewrite (paginated_first env fuel uripath collection (Some tok) w tok w eq_refl).
    destruct (paginated_walk_invariant env (S fuel)
                (first_uri env collection uripath) (first_collection collection)
                tok w) as (w' & added & Hres & Ht & He & Ho & Hl & Hc).
    exists added.
    destruct Hres as [[more Hres] | Hres]; rewrite Hres; cbn [fst snd];
      repeat split; trivial.
    + intros rows Hrows. inversion Hrows. now exists more.
    + discriminate.
Qed.

Lemma paginated_keeps_its_token_witness :
  exists more,
    fst (paginatedFetchFromCSOD dataset 3 "https://csod.example/x"
           (Some ["z"%string]) (Some "Bearer abc") fresh)
    = Returned (["z"%string] ++ more).
Proof.
  destruct (paginated_keeps_its_token dataset 3 "https://csod.example/x"
              (Some ["z"%string]) "Bearer abc" fresh)
    as (added & _ & _ & _ & _ & _ & Hrows).
  destruct (Hrows ["z"; "a"; "b"; "c"]%string eq_refl) as [more Hmore].
  exists more. cbn [first_collection] in Hmore. rewrite <- Hmore. reflexivity.
Defined.

(** X7.  paginatedFetchFromCSOD has no bound on the pages it follows: against a
    server that answers every request with a page that has a next link, it
    never returns; with fuel for n calls it sends n requests and is still
    going. *)
Theorem paginated_endless {T} (env : Env (ODataResponse T)) fuel uripath
    collection tok w :
  (forall n r, exists resp p link,
      answered env n r resp 200 p /\ odata_nextLink p = Some link
      /\ truthy (Some link) = true) ->
  exists w',
    paginatedFetchFromCSOD env fuel uripath collection (Some tok) w = (OutOfFuel, w')
    /\ api_sent w' = (api_sent w + fuel)%nat.
Proof.
  intros Hend. destruct fuel as [| fuel].
  - exists w. split; [reflexivity | lia].
  - rewrite (paginated_first env fuel uripath collection (Some tok) w tok w eq_refl).
    now apply paginated_endless_run.
Qed.

Lemma paginated_endless_witness :
  exists w',
    paginatedFetchFromCSOD endless_server 50 "/x" None (Some "Bearer abc") fresh
    = (OutOfFuel, w')
    /\ api_sent w' = 50%nat.
Proof.
  apply (paginated_endless endless_server 50 "/x" None "Bearer abc" fresh).
  intros n r. eexists _, _, _. repeat split; reflexivity.
Defined.

(** X8.  paginatedFetchFromCSOD without a token.  When the cache holds a token
    that has not expired, the call is the call with that token.  When the
    cache is empty or stale and the issuing request ends in an exception, the
    call ends in that exception and nothing is sent to the API. *)
Theorem paginated_without_token {T} (env : Env (ODataResponse T)) fuel uripath
    collection w :
  (must_issue (clock w) w = false ->
   paginatedFetchFromCSOD env fuel uripath collection None w
   = paginatedFetchFromCSOD env fuel uripath collection
       (Some (render (token w))) w)
  /\ (forall e,
        must_issue (clock w) w = true ->
        issue_throws env (oauth_sent w) e ->
        (0 < fuel)%nat ->
        exists w',
          paginatedFetchFromCSOD env fuel uripath collection None w = (Thrown e, w')
          /\ api_sent w' = api_sent w
          /\ trace w' = trace w ++ [TokenRequested]).
Proof.
  split.
  - intros Hfresh. destruct fuel as [| fuel]; [reflexivity |].
    rewrite (paginated_first env fuel uripath collection None w
               (render (token w)) w).
    + now rewrite (paginated_first env fuel uripath collection
                     (Some (render (token w))) w (render (token w)) w eq_refl).
    + cbn [token_or_get]. unfold getCSODToken. now apply get_cached.
  - intros e Hstale Hthrow Hfuel. destruct fuel as [| fuel]; [lia |].
    cbn [paginatedFetchFromCSOD token_or_get]. unfold bind at 1.
    unfold getCSODToken. rewrite (get_thrown env w e Hstale Hthrow).
    eexists. split; [reflexivity |]. split; reflexivity.
Qed.

Lemma paginated_without_token_witness :
  (paginatedFetchFromCSOD dataset 3 "/x" None None (snd (get dataset fresh))
   = paginatedFetchFromCSOD dataset 3 "/x" None (Some "Bearer abc")
       (snd (get dataset fresh)))
  /\ (exists w',
        paginatedFetchFromCSOD unreachable 3 "/x" None None fresh
        = (Thrown (NetworkFault "ENOTFOUND"), w')
        /\ api_sent w' = 0%nat
        /\ trace w' = [TokenRequested]).
Proof.
  split.
  - apply (proj1 (paginated_without_token dataset 3 "/x" None
                    (snd (get dataset fresh)))).
    reflexivity.
  - apply (proj2 (paginated_without_token unreachable 3 "/x" None fresh)
             (NetworkFault "ENOTFOUND")).
    + reflexivity.
    + left. reflexivity.
    + lia.
Defined.

(** ** More on the loop flavour and the single-page readers *)

Section LoopMore.

Context {T : Type}.
Variable env : Env (ODataResponse T).

Lemma api_sent_fetch r w : api_sent (snd (fetch env r w)) = S (api_sent w).
Proof.
  unfold fetch. now destruct (api_reply env (api_sent w) r).
Qed.

Lemma fetch_world r w :
  snd (fetch env r w)
  = mkWorld (clock w + Z.of_N (api_latency env (api_sent w))) (token w)
            (expiration w) (oauth_sent w) (S (api_sent w))
            (trace w ++ [Requested r]).
Proof.
  unfold fetch. now destruct (api_reply env (api_sent w) r).
Qed.

Lemma getAllUsers_loop_faulted fuel tok uri acc w e :
  faulted env (api_sent w)
          (mkRequest uri (user_headers tok) GET None) e ->
  getAllUsers_loop env (S fuel) tok (Some uri) acc w
  = (Thrown e, snd (fetch env (mkRequest uri (user_headers tok) GET None) w)).
Proof.
  intros Hf. cbn [getAllUsers_loop fetch_any]. unfold bind at 1.
  fold (user_headers tok). unfold fetch.
  destruct Hf as [Hr | (resp & Hr & Hj)]; rewrite Hr; cbn [snd].
  - reflexivity.
  - unfold bind, response_json. now rewrite Hj.
Qed.

(** Full pages with a next link, served in order, are so many turns of the
    loop. *)
Lemma getAllUsers_loop_full tok pre : forall fuel uri acc w,
  serves env w pre ->
  Forall (fun p => (1000 <= List.length (value p))%nat
                   /\ truthy (odata_nextLink p) = true) pre ->
  exists next w',
    getAllUsers_loop env (List.length pre + fuel) tok (Some uri) acc w
    = getAllUsers_loop env fuel tok next (acc ++ List.concat (map value pre)) w'
    /\ api_sent w' = (api_sent w + List.length pre)%nat
    /\ next = match rev pre with
              | [] => Some uri
              | p :: _ => odata_nextLink p
              end.
Proof.
  induction pre as [| p pre IH] using rev_ind; intros fuel uri acc w Hs Hpre.
  - exists (Some uri), w. cbn. rewrite app_nil_r. repeat split. lia.
  - apply Forall_app in Hpre. destruct Hpre as [Hpre Hp].
    inversion Hp as [| ? ? [Hfull Hnext] _]; subst.
    destruct (IH (S fuel) uri acc w) as (next & w1 & Hrun & Hsent & Hnextpre);
      trivial.
    { intros i q r Hq. apply Hs. rewrite nth_error_app1; [exact Hq |].
      apply nth_error_Some. congruence. }
    rewrite length_app. cbn [List.length].
    replace (List.length pre + 1 + fuel)%nat with (List.length pre + S fuel)%nat
      by lia.
    rewrite Hrun.
    assert (Hsome : exists u, next = Some u).
    { rewrite Hnextpre. destruct (rev pre) as [| q qs] eqn:Hrev; [now exists uri |].
      assert (Hq : In q pre) by (apply in_rev; rewrite Hrev; now left).
      rewrite Forall_forall in Hpre. destruct (Hpre q Hq) as [_ Hqn].
      destruct (odata_nextLink q) as [u |]; [now exists u | discriminate]. }
    destruct Hsome as [u ->].
    destruct (Hs (List.length pre) p (mkRequest u (user_headers tok) GET None))
      as [resp Ha].
    { rewrite nth_error_app2 by lia. now rewrite Nat.sub_diag. }
    rewrite <- Hsent in Ha.
    rewrite (getAllUsers_loop_step env fuel tok u _ w1 resp 200 p Ha).
    apply Nat.ltb_ge in Hfull. rewrite Hfull.
    eexists _, _. split; [| split].
    + rewrite map_app, concat_app. cbn [map List.concat].
      now rewrite app_nil_r, app_assoc.
    + rewrite api_sent_fetch. lia.
    + now rewrite rev_app_distr.
Qed.

End LoopMore.

(** X9.  getAllUsers gives no partial result.  When the pages before are full
    (1000 rows or more, with a next link) and the next request ends in an
    exception, getAllUsers ends in that exception and the rows it had are
    lost; the recursive flavour returns them. *)
Theorem getAllUsers_throws_on_fault {T} (env : Env (ODataResponse T)) fuel tok w
    pre e :
  serves env w pre ->
  Forall (fun p => (1000 <= List.length (value p))%nat
                   /\ truthy (odata_nextLink p) = true) pre ->
  (forall r, faulted env (api_sent w + List.length pre) r e) ->
  (List.length pre < fuel)%nat ->
  exists w',
    getAllUsers env fuel tok w = (Thrown e, w')
    /\ api_sent w' = (api_sent w + S (List.length pre))%nat.
Proof.
  intros Hs Hpre Hf Hfuel. unfold getAllUsers.
  replace fuel with (List.length pre + S (fuel - S (List.length pre)))%nat by lia.
  destruct (getAllUsers_loop_full env tok pre (S (fuel - S (List.length pre)))
              (render (process_env_CSOD_API_HOST env)
               ++ "/x/odata/api/views/vw_rpt_user")%string [] w Hs Hpre)
    as (next & w1 & Hrun & Hsent & Hnext).
  rewrite Hrun.
  assert (Hsome : exists u, next = Some u).
  { rewrite Hnext. destruct (rev pre) as [| q qs] eqn:Hrev; [now eexists |].
    assert (Hq : In q pre) by (apply in_rev; rewrite Hrev; now left).
    rewrite Forall_forall in Hpre. destruct (Hpre q Hq) as [_ Hqn].
    destruct (odata_nextLink q) as [u |]; [now exists u | discriminate]. }
  destruct Hsome as [u ->].
  rewrite (getAllUsers_loop_faulted env _ tok u _ w1 e).
  - eexists. split; [reflexivity |]. rewrite api_sent_fetch. lia.
  - rewrite Hsent. apply Hf.
Qed.

Lemma getAllUsers_throws_on_fault_witness :
  exists w',
    getAllUsers full_then_broken 2 "Bearer abc" fresh
    = (Thrown (NetworkFault "ECONNRESET"), w')
    /\ api_sent w' = 2%nat.
Proof.
  apply (getAllUsers_throws_on_fault full_then_broken 2 "Bearer abc" fresh
           [page (repeat "u" 1000) (Some "https://csod.example/x?page=2")]
           (NetworkFault "ECONNRESET")).
  - intros i p r Hp. destruct i as [| i]; cbn in Hp.
    + inversion Hp; subst. eexists. repeat split; reflexivity.
    + destruct i; discriminate.
  - constructor; [| constructor]. split; [| reflexivity].
    cbn [value page]. rewrite repeat_length. lia.
  - intros r. left. reflexivity.
  - cbn. lia.
Defined.

(** X10.  getAllUsers takes a full last page for a page that has a successor: when
    the pages before are full with a next link and the last page is full
    without one, the loop fetches the undefined next link, which node-fetch
    rejects, and getAllUsers ends in that TypeError instead of returning the
    rows. *)
Theorem getAllUsers_full_last_page {T} (env : Env (ODataResponse T)) fuel tok w
    pre last :
  serves env w (pre ++ [last]) ->
  Forall (fun p => (1000 <= List.length (value p))%nat
                   /\ truthy (odata_nextLink p) = true) pre ->
  (1000 <= List.length (value last))%nat ->
  odata_nextLink last = None ->
  (S (List.length pre) < fuel)%nat ->
  exists w',
    getAllUsers env fuel tok w
    = (Thrown (TypeError "Only absolute URLs are supported"), w')
    /\ api_sent w' = (api_sent w + S (List.length pre))%nat.
Proof.
  intros Hs Hpre Hfull Hnone Hfuel. unfold getAllUsers.
  replace fuel with (List.length pre + S (S (fuel - S (S (List.length pre)))))%nat
    by lia.
  destruct (getAllUsers_loop_full env tok pre
              (S (S (fuel - S (S (List.length pre)))))
              (render (process_env_CSOD_API_HOST env)
               ++ "/x/odata/api/views/vw_rpt_user")%string [] w)
    as (next & w1 & Hrun & Hsent & Hnext); trivial.
  { intros i q r Hq. apply Hs. rewrite nth_error_app1; [exact Hq |].
    apply nth_error_Some. congruence. }
  rewrite Hrun.
  assert (Hsome : exists u, next = Some u).
  { rewrite Hnext. destruct (rev pre) as [| q qs] eqn:Hrev; [now eexists |].
    assert (Hq : In q pre) by (apply in_rev; rewrite Hrev; now left).
    rewrite Forall_forall in Hpre. destruct (Hpre q Hq) as [_ Hqn].
    destruct (odata_nextLink q) as [u |]; [now exists u | discriminate]. }
  destruct Hsome as [u ->].
  destruct (Hs (List.length pre) last (mkRequest u (user_headers tok) GET None))
    as [resp Ha].
  { rewrite nth_error_app2 by lia. now rewrite Nat.sub_diag. }
  rewrite <- Hsent in Ha.
  rewrite (getAllUsers_loop_step env _ tok u _ w1 resp 200 last Ha).
  apply Nat.ltb_ge in Hfull. rewrite Hfull, Hnone.
  cbn [getAllUsers_loop fetch_any]. unfold bind, throw.
  eexists. split; [reflexivity |]. rewrite api_sent_fetch. lia.
Qed.

Lemma getAllUsers_full_last_page_witness :
  exists w',
    getAllUsers full_without_next 2 "Bearer abc" fresh
    = (Thrown (TypeError "Only absolute URLs are supported"), w')
    /\ api_sent w' = 1%nat.
Proof.
  apply (getAllUsers_full_last_page full_without_next 2 "Bearer abc" fresh []
           (page (repeat "u" 1000) None)).
  - intros i p r Hp. destruct i as [| i]; cbn in Hp.
    + inversion Hp; subst. eexists. repeat split; reflexivity.
    + destruct i; discriminate.
  - constructor.
  - cbn [value page]. rewrite repeat_length. lia.
  - reflexivity.
  - cbn. lia.
Defined.

(** X11.  getAllUsers does not look at the status of an answer and does not retry:
    whatever the status of the first answer, 429 or 500 too, a body with
    fewer than 1000 rows ends the loop after that one request and its rows
    are returned. *)
Theorem getAllUsers_ignores_status {T} (env : Env (ODataResponse T)) fuel tok w
    resp c p :
  let r := mkRequest (render (process_env_CSOD_API_HOST env)
                      ++ "/x/odata/api/views/vw_rpt_user")%string
                     [("Content-Type", "application/json");
                      ("Authorization", tok)] GET None in
  answered env (api_sent w) r resp c p ->
  (List.length (value p) < 1000)%nat ->
  exists w',
    getAllUsers env (S fuel) tok w = (Returned (value p), w')
    /\ api_sent w' = S (api_sent w)
    /\ requested (trace w') = requested (trace w) ++ [r].
Proof.
  intros r Ha Hshort. unfold getAllUsers.
  rewrite (getAllUsers_loop_step env fuel tok _ [] w resp c p Ha).
  apply Nat.ltb_lt in Hshort. rewrite Hshort. fold r.
  eexists. split; [reflexivity |]. split; [apply api_sent_fetch |].
  unfold fetch. destruct (api_reply env (api_sent w) r); cbn [snd trace].
  all: induction (trace w) as [| [s | q |] t IH]; cbn; congruence.
Qed.

Lemma getAllUsers_ignores_status_witness :
  exists w',
    getAllUsers always_429 1 "Bearer abc" fresh = (Returned [], w')
    /\ api_sent w' = 1%nat.
Proof.
  destruct (getAllUsers_ignores_status always_429 0 "Bearer abc" fresh
              (mkResponse 429 "Too Many Requests" (inr (page [] None))) 429
              (page [] None)) as (w' & Hrun & Hs & _).
  - repeat split; reflexivity.
  - cbn. lia.
  - exists w'. split; [exact Hrun | exact Hs].
Defined.

(** X12.  getUsersByPagination, for page numbers that are integers.  A
    negative page number gives null and sends nothing.  Page numbers 0 and 1
    are the same call: both ask for page 0.  For a page number from 0 to 2^53
    (beyond that the subtraction of the source rounds), whatever the status of
    the answer, the result holds the page number asked for (one less than the
    argument, but 0 for 0), the rows and the count of the body. *)
Theorem getUsersByPagination_pages {T} (env : Env (ODataResponse T))
    (number_text : Z -> string) tok top w :
  (forall pageNo,
     pageNo < 0 ->
     getUsersByPagination env number_text tok pageNo top w = (Returned None, w))
  /\ getUsersByPagination env number_text tok 1 top w
     = getUsersByPagination env number_text tok 0 top w
  /\ (forall pageNo resp c p,
        0 <= pageNo <= 2 ^ 53 ->
        let asked := Z.max 0 (pageNo - 1) in
        let r := mkRequest
                   (render (process_env_CSOD_API_HOST env)
                    ++ "/x/odata/api/views/vw_rpt_user?$top=" ++ number_text top
                    ++ "&$pageNo=" ++ number_text asked ++ "&$count=true")%string
                   [("Content-Type", "application/json");
                    ("Authorization", tok)] GET None in
        answered env (api_sent w) r resp c p ->
        exists w',
          getUsersByPagination env number_text tok pageNo top w
          = (Returned (Some (mkUsersPage asked (value p) (odata_count p))), w')
          /\ api_sent w' = S (api_sent w)).
Proof.
  split; [| split].
  - intros pageNo Hneg. unfold getUsersByPagination.
    apply Z.ltb_lt in Hneg. now rewrite Hneg.
  - reflexivity.
  - intros pageNo resp c p Hpos asked r (Hr & _ & Hj).
    unfold getUsersByPagination.
    destruct Hpos as [Hpos _].
    assert (Hnn : (pageNo <? 0) = false) by (apply Z.ltb_ge; lia).
    rewrite Hnn.
    assert (Hasked : (if pageNo =? 0 then pageNo else pageNo - 1) = asked).
    { subst asked. destruct (pageNo =? 0) eqn:H0.
      - apply Z.eqb_eq in H0. lia.
      - apply Z.eqb_neq in H0. lia. }
    rewrite Hasked. fold (user_headers tok). change (mkRequest _ _ GET None) with r.
    unfold bind at 1. unfold fetch. rewrite Hr.
    unfold bind, response_json. rewrite Hj.
    eexists. split; reflexivity.
Qed.

Lemma getUsersByPagination_pages_witness :
  getUsersByPagination two_pages (fun _ => "n"%string) "Bearer abc" (-1) 10 fresh
  = (Returned None, fresh)
  /\ exists w',
       getUsersByPagination two_pages (fun _ => "n"%string) "Bearer abc" 3 10 fresh
       = (Returned (Some (mkUsersPage 2 ["a"%string] None)), w')
       /\ api_sent w' = 1%nat.
Proof.
  destruct (getUsersByPagination_pages two_pages (fun _ => "n"%string)
              "Bearer abc" 10 fresh) as (Hneg & _ & Hpage).
  split.
  - apply Hneg. lia.
  - apply (Hpage 3 (mkResponse 200 "OK"
                      (inr (page ["a"] (Some "https://csod.example/x?page=2"))))
             200 (page ["a"] (Some "https://csod.example/x?page=2"))).
    + split; [lia | discriminate].
    + repeat split; reflexivity.
Defined.

(** X13.  getUserInfoById of users/getUserInfo.ts sends one request and, whatever
    the status of the answer, returns the first row of the body; when the body
    has no rows the user is undefined, and nothing is thrown. *)
Theorem getUserInfoById_first_row {T} (env : Env (ODataResponse T))
    (number_text : Z -> string) tok userId w resp c p :
  let r := mkRequest
             (render (process_env_CSOD_API_HOST env)
              ++ "/x/odata/api/views/vw_rpt_user?$filter=user_id eq "
              ++ number_text userId)%string
             [("Content-Type", "application/json"); ("Authorization", tok)]
             GET None in
  answered env (api_sent w) r resp c p ->
  exists w',
    getUserInfoById env number_text tok userId w = (Returned (hd_error (value p)), w')
    /\ api_sent w' = S (api_sent w)
    /\ (value p = [] ->
        getUserInfoById env number_text tok userId w = (Returned None, w')).
Proof.
  intros r (Hr & _ & Hj).
  assert (Hrun : getUserInfoById env number_text tok userId w
                 = (Returned (hd_error (value p)), snd (fetch env r w))).
  { unfold getUserInfoById.
    fold (user_headers tok). change (mkRequest _ _ GET None) with r.
    unfold bind at 1. unfold fetch. rewrite Hr.
    unfold bind, response_json. now rewrite Hj. }
  exists (snd (fetch env r w)). split; [exact Hrun |].
  split; [apply api_sent_fetch |].
  intros Hempty. rewrite Hrun. now rewrite Hempty.
Qed.

Lemma getUserInfoById_first_row_witness :
  exists w',
    getUserInfoById always_429 (fun _ => "7"%string) "Bearer abc" 7 fresh
    = (Returned None, w')
    /\ api_sent w' = 1%nat.
Proof.
  destruct (getUserInfoById_first_row always_429 (fun _ => "7"%string)
              "Bearer abc" 7 fresh
              (mkResponse 429 "Too Many Requests" (inr (page [] None))) 429
              (page [] None)) as (w' & Hrun & Hs & _).
  - repeat split; reflexivity.
  - exists w'. split; [exact Hrun | exact Hs].
Defined.

(** ** More on the token cache *)



Section CallsMore.

Context {Body : Type}.
Variable env : Env Body.

Lemma get_requests_at_most_one w :
  (oauth_sent (snd (get env w)) <= S (oauth_sent w))%nat
  /\ clock w <= clock (snd (get env w)).
Proof.
  rewrite get_cases.
  destruct (must_issue (clock w) w); [| cbn; lia].
  destruct (oauth_reply env (oauth_sent w)) as [e | r];
    [| destruct (oauth_json r) as [e | b]];
    cbn [snd token_requested token_stored oauth_sent clock]; lia.
Qed.

Lemma get_calls_cons gap gaps w :
  get_calls env (gap :: gaps) w
  = match get env (snd (elapse gap w)) with
    | (Returned t, w1) =>
        match get_calls env gaps w1 with
        | (Returned ts, w2) => (Returned (t :: ts), w2)
        | (Thrown e, w2) => (Thrown e, w2)
        | (OutOfFuel, w2) => (OutOfFuel, w2)
        end
    | (Thrown e, w1) => (Thrown e, w1)
    | (OutOfFuel, w1) => (OutOfFuel, w1)
    end.
Proof.
  reflexivity.
Qed.

Lemma get_calls_count gaps : forall w,
  (oauth_sent (snd (get_calls env gaps w)) <= oauth_sent w + List.length gaps)%nat
  /\ clock w <= clock (snd (get_calls env gaps w)).
Proof.
  induction gaps as [| gap gaps IH]; intros w.
  - cbn. lia.
  - rewrite get_calls_cons. cbn [List.length].
    pose proof (get_requests_at_most_one (snd (elapse gap w))) as [Hreq Hclock].
    destruct (get env (snd (elapse gap w))) as [[t | e | ] w1];
      cbn [elapse snd oauth_sent clock] in Hreq, Hclock; cbn [snd] in *.
    + destruct (IH w1) as (Hr & Hc).
      destruct (get_calls env gaps w1) as [[ts | e | ] w2]; cbn [snd] in *; lia.
    + lia.
    + lia.
Qed.

Lemma get_calls_keep gaps : forall w,
  (forall d, offset_stable env d) ->
  expires_within_ttl w ->
  expires_within_ttl (snd (get_calls env gaps w)).
Proof.
  induction gaps as [| gap gaps IH]; intros w Hst Hw.
  - exact Hw.
  - rewrite get_calls_cons.
    pose proof (elapse_keeps_expires_within_ttl gap w Hw) as Hw0.
    pose proof (get_keeps_expires_within_ttl env _ Hst Hw0) as Hinv.
    destruct (get env (snd (elapse gap w))) as [[t | e | ] w1]; cbn [snd] in *;
      trivial.
    pose proof (IH w1 Hst Hinv) as Hi.
    destruct (get_calls env gaps w1) as [[ts | e | ] w2]; cbn [snd] in *; trivial.
Qed.

End CallsMore.

(** X15.  Over any sequence of calls of get(), whatever the token endpoint
    answers and however long the caller waits between them, each call sends at
    most one issuing request and the clock does not go back.  On a host whose
    offset from UTC never changes within 15 seconds, the stored expiration
    moreover never lies more than 15 seconds ahead of the clock; where the
    offset changes it can, as get_expiration_when_clocks_go_back shows. *)
Theorem get_calls_invariants {Body} (env : Env Body) gaps w :
  let w' := snd (get_calls env gaps w) in
  (oauth_sent w' <= oauth_sent w + List.length gaps)%nat
  /\ clock w <= clock w'
  /\ ((forall d, offset_stable env d) ->
      expires_within_ttl w -> expires_within_ttl w').
Proof.
  cbn zeta. destruct (get_calls_count env gaps w) as [Hr Hc].
  split; [exact Hr |]. split; [exact Hc |].
  intros Hst Hw. now apply get_calls_keep.
Qed.

Lemma get_calls_invariants_witness :
  let w' := snd (get_calls always_429 [0; 20000; 3000]%N fresh) in
  (oauth_sent w' <= 3)%nat /\ 0 <= clock w' /\ expires_within_ttl w'.
Proof.
  destruct (get_calls_invariants always_429 [0; 20000; 3000]%N fresh)
    as (Hr & Hc & Hinv).
  split; [exact Hr |]. split; [exact Hc |].
  apply Hinv; [intros d; reflexivity | exact I].
Defined.

(** ** index.ts: getUserInfoById *)

Lemma slept_app t1 t2 : slept (t1 ++ t2) = slept t1 ++ slept t2.
Proof.
  induction t1 as [| [s | r |] t1 IH]; cbn; congruence.
Qed.

Section IndexUserInfo.

Variable env : Env (ODataResponse Index.UserDetails).
Variable number_text : Z -> string.

(** The request getUserInfoById sends, at every attempt. *)
Let user_request (tok : string) (userId : Z) : Request :=
  mkRequest (render (process_env_CSOD_API_HOST env)
             ++ "/x/odata/api/views/vw_rpt_user?$filter=user_id eq "
             ++ number_text userId)%string
            [("Content-Type", "application/json"); ("Authorization", tok)]
            GET None.

Lemma index_getUserInfoById_rejected fuel tok userId w e :
  api_reply env (api_sent w) (user_request tok userId) = Rejected e ->
  Index.getUserInfoById env number_text (S fuel) tok userId w
  = (Thrown e, snd (fetch env (user_request tok userId) w)).
Proof.
  intros Hr. cbn [Index.getUserInfoById]. unfold bind at 1.
  fold (user_request tok userId). unfold fetch. now rewrite Hr.
Qed.

Lemma index_getUserInfoById_resolved fuel tok userId w resp :
  api_reply env (api_sent w) (user_request tok userId) = Resolved resp ->
  Index.getUserInfoById env number_text (S fuel) tok userId w
  = let w1 := snd (fetch env (user_request tok userId) w) in
    if status resp =? 200 then
      match json resp with
      | inr p => (Returned (hd_error (value p)), w1)
      | inl _ => (Returned (Some (Index.fakeUser userId)), w1)
      end
    else if status resp =? 429 then
      match Index.getUserInfoById env number_text fuel tok userId
              (snd (sleep 60 w1)) with
      | (Thrown _, w') => (Returned (Some (Index.fakeUser userId)), w')
      | other => other
      end
    else (Returned (Some (Index.fakeUser userId)), snd (sleep 20 w1)).
Proof.
  intros Hr. cbn [Index.getUserInfoById]. unfold bind at 1.
  fold (user_request tok userId). unfold fetch. rewrite Hr. cbn [snd].
  unfold try_catch. cbn zeta.
  destruct (status resp =? 200).
  - unfold bind, response_json. now destruct (json resp).
  - destruct (status resp =? 429); [| reflexivity].
    unfold bind at 1. cbn [sleep]. reflexivity.
Qed.

Lemma index_getUserInfoById_429_run fuel tok userId : forall w,
  (forall n r, exists resp, api_reply env n r = Resolved resp /\ status resp = 429) ->
  exists w',
    Index.getUserInfoById env number_text fuel tok userId w = (OutOfFuel, w')
    /\ api_sent w' = (api_sent w + fuel)%nat
    /\ slept (trace w') = slept (trace w) ++ repeat 60 fuel.
Proof.
  induction fuel as [| fuel IH]; intros w H429.
  - exists w. cbn. rewrite app_nil_r. repeat split. lia.
  - destruct (H429 (api_sent w) (user_request tok userId)) as (resp & Hr & Hs).
    rewrite (index_getUserInfoById_resolved fuel tok userId w resp Hr).
    cbn zeta. rewrite Hs. change (429 =? 200) with false.
    change (429 =? 429) with true. cbn iota.
    destruct (IH (snd (sleep 60 (snd (fetch env (user_request tok userId) w)))) H429)
      as (w' & Hrun & Hsent & Hslept).
    rewrite Hrun. exists w'. split; [reflexivity |].
    rewrite Hsent, Hslept. cbn [sleep snd api_sent trace].
    rewrite fetch_world. cbn [api_sent trace]. split; [lia |].
    rewrite !slept_app. cbn [slept repeat app]. now rewrite <- !app_assoc.
Qed.

End IndexUserInfo.

(** X16.  getUserInfoById of index.ts ends in an exception exactly when the fetch
    of its first request rejects: that fetch is before the [try] block.  Once
    the first request is answered, nothing is thrown any more; in particular
    when the first answer is 429 and the fetch of the second request rejects,
    the awaited recursive call is inside the block and the fake user is
    returned. *)
Theorem index_getUserInfoById_exceptions
    (env : Env (ODataResponse Index.UserDetails)) (number_text : Z -> string)
    fuel tok userId w :
  let r := mkRequest (render (process_env_CSOD_API_HOST env)
                      ++ "/x/odata/api/views/vw_rpt_user?$filter=user_id eq "
                      ++ number_text userId)%string
                     [("Content-Type", "application/json");
                      ("Authorization", tok)] GET None in
  (forall e,
     api_reply env (api_sent w) r = Rejected e ->
     exists w',
       Index.getUserInfoById env number_text (S fuel) tok userId w = (Thrown e, w')
       /\ api_sent w' = S (api_sent w))
  /\ (forall resp,
        api_reply env (api_sent w) r = Resolved resp ->
        forall e w',
          Index.getUserInfoById env number_text (S fuel) tok userId w
          <> (Thrown e, w'))
  /\ (forall resp e,
        api_reply env (api_sent w) r = Resolved resp ->
        status resp = 429 ->
        api_reply env (S (api_sent w)) r = Rejected e ->
        exists w',
          Index.getUserInfoById env number_text (S (S fuel)) tok userId w
          = (Returned (Some (Index.fakeUser userId)), w')
          /\ api_sent w' = S (S (api_sent w))
          /\ slept (trace w') = slept (trace w) ++ [60]).
Proof.
  intros r. split; [| split].
  - intros e Hr.
    rewrite (index_getUserInfoById_rejected env number_text fuel tok userId w e Hr).
    eexists. split; [reflexivity | apply api_sent_fetch].
  - intros resp Hr e w'.
    rewrite (index_getUserInfoById_resolved env number_text fuel tok userId w resp Hr).
    cbn zeta.
    destruct (status resp =? 200); [destruct (json resp); discriminate |].
    destruct (status resp =? 429); [| discriminate].
    destruct (Index.getUserInfoById env number_text fuel tok userId _)
      as [[u | e0 | ] w1]; discriminate.
  - intros resp e Hr Hs Hr2.
    rewrite (index_getUserInfoById_resolved env number_text (S fuel) tok userId w
               resp Hr).
    cbn zeta. rewrite Hs. change (429 =? 200) with false.
    change (429 =? 429) with true. cbn iota.
    rewrite (index_getUserInfoById_rejected env number_text fuel tok userId _ e).
    + eexists. split; [reflexivity |].
      rewrite !fetch_world. cbn [sleep snd api_sent trace].
      split; [reflexivity |].
      rewrite !slept_app. cbn [slept]. now rewrite !app_nil_r.
    + cbn [sleep snd api_sent]. rewrite api_sent_fetch. exact Hr2.
Qed.

Lemma index_getUserInfoById_exceptions_witness :
  (exists w',
     Index.getUserInfoById (user_server (fun _ _ => Rejected (NetworkFault "ENOTFOUND")))
       (fun _ => "7"%string) 1 "Bearer abc" 7 fresh
     = (Thrown (NetworkFault "ENOTFOUND"), w')
     /\ api_sent w' = 1%nat)
  /\ (exists w',
        Index.getUserInfoById users_429_then_broken (fun _ => "7"%string) 2
          "Bearer abc" 7 fresh
        = (Returned (Some (Index.fakeUser 7)), w')
        /\ api_sent w' = 2%nat
        /\ slept (trace w') = [60]).
Proof.
  split.
  - apply (proj1 (index_getUserInfoById_exceptions
                    (user_server (fun _ _ => Rejected (NetworkFault "ENOTFOUND")))
                    (fun _ => "7"%string) 0 "Bearer abc" 7 fresh)
             (NetworkFault "ENOTFOUND")).
    reflexivity.
  - apply (proj2 (proj2 (index_getUserInfoById_exceptions users_429_then_broken
                           (fun _ => "7"%string) 0 "Bearer abc" 7 fresh))
             (mkResponse 429 "Too Many Requests" (inr (mkOData None [] None)))
             (NetworkFault "ECONNRESET")); reflexivity.
Defined.

(** X17.  getUserInfoById of index.ts has no bound on its retries: against a server
    that answers 429 to everything it never returns; with fuel for n calls it
    has sent n requests, slept 60 seconds after each, and is still going. *)
Theorem index_getUserInfoById_no_retry_bound
    (env : Env (ODataResponse Index.UserDetails)) (number_text : Z -> string)
    fuel tok userId w :
  (forall n r, exists resp, api_reply env n r = Resolved resp /\ status resp = 429) ->
  exists w',
    Index.getUserInfoById env number_text fuel tok userId w = (OutOfFuel, w')
    /\ api_sent w' = (api_sent w + fuel)%nat
    /\ slept (trace w') = slept (trace w) ++ repeat 60 fuel.
Proof.
  intros H429. now apply index_getUserInfoById_429_run.
Qed.

Lemma index_getUserInfoById_no_retry_bound_witness :
  exists w',
    Index.getUserInfoById users_always_429 (fun _ => "7"%string) 40 "Bearer abc" 7
      fresh
    = (OutOfFuel, w')
    /\ api_sent w' = 40%nat
    /\ slept (trace w') = repeat 60 40.
Proof.
  apply (index_getUserInfoById_no_retry_bound users_always_429
           (fun _ => "7"%string) 40 "Bearer abc" 7 fresh).
  intros n r. eexists. split; reflexivity.
Defined.

(** X18.  What getUserInfoById of index.ts makes of a first answer that is not 429.
    With status 200 it returns the first row of the body, or undefined when
    the body has no rows, and the fake user when the body does not parse.
    With any other status it does not read the body, sleeps 20 seconds and
    returns the fake user, whose user_id is the one asked for and whose
    user_status_id is 999. *)
Theorem index_getUserInfoById_answers
    (env : Env (ODataResponse Index.UserDetails)) (number_text : Z -> string)
    fuel tok userId w resp :
  let r := mkRequest (render (process_env_CSOD_API_HOST env)
                      ++ "/x/odata/api/views/vw_rpt_user?$filter=user_id eq "
                      ++ number_text userId)%string
                     [("Content-Type", "application/json");
                      ("Authorization", tok)] GET None in
  api_reply env (api_sent w) r = Resolved resp ->
  status resp <> 429 ->
  exists u w',
    Index.getUserInfoById env number_text (S fuel) tok userId w = (Returned u, w')
    /\ api_sent w' = S (api_sent w)
    /\ (status resp = 200 ->
        slept (trace w') = slept (trace w)
        /\ match json resp with
           | inr p => u = hd_error (value p)
           | inl _ => u = Some (Index.fakeUser userId)
           end)
    /\ (status resp <> 200 ->
        slept (trace w') = slept (trace w) ++ [20]
        /\ u = Some (Index.fakeUser userId))
    /\ Index.user_id (Index.fakeUser userId) = userId
    /\ Index.user_status_id (Index.fakeUser userId) = 999.
Proof.
  intros r Hr H429.
  rewrite (index_getUserInfoById_resolved env number_text fuel tok userId w resp Hr).
  cbn zeta. fold r.
  apply Z.eqb_neq in H429. rewrite H429.
  assert (Hbase : slept (trace (snd (fetch env r w))) = slept (trace w)).
  { rewrite fetch_world. cbn [trace]. rewrite slept_app. cbn. apply app_nil_r. }
  destruct (status resp =? 200) eqn:H200.
  - apply Z.eqb_eq in H200.
    destruct (json resp) as [e | p]; eexists _, _;
      (split; [reflexivity |]); (split; [apply api_sent_fetch |]);
      repeat split; trivial; intros; contradiction.
  - apply Z.eqb_neq in H200.
    eexists _, _. split; [reflexivity |].
    split; [cbn [sleep snd api_sent]; apply api_sent_fetch |].
    split; [intros; contradiction |].
    split; [| split; reflexivity].
    intros _. split; [| reflexivity].
    cbn [sleep snd trace]. rewrite slept_app, Hbase. reflexivity.
Qed.

Lemma index_getUserInfoById_answers_witness :
  exists w',
    Index.getUserInfoById
      (user_server (fun _ _ => Resolved (mkResponse 503 "Service Unavailable"
                                           (inl (MalformedBody "<html>")))))
      (fun _ => "7"%string) 1 "Bearer abc" 7 fresh
    = (Returned (Some (Index.fakeUser 7)), w')
    /\ slept (trace w') = [20].
Proof.
  destruct (index_getUserInfoById_answers
              (user_server (fun _ _ => Resolved (mkResponse 503 "Service Unavailable"
                                                   (inl (MalformedBody "<html>")))))
              (fun _ => "7"%string) 0 "Bearer abc" 7 fresh
              (mkResponse 503 "Service Unavailable" (inl (MalformedBody "<html>"))))
    as (u & w' & Hrun & _ & _ & Hother & _).
  - reflexivity.
  - cbn. discriminate.
  - destruct Hother as [Hs Hu]; [cbn; discriminate |].
    exists w'. subst u. split; [exact Hrun | exact Hs].
Defined.

(** ** index.ts: getJson and getTranscripts *)

Section IndexTranscripts.

Context {I : Type}.
Variable env : Env (Index.TranscriptBody I).
Variable number_text : Z -> string.
Variables (tok user : string).

(** The request getTranscripts sends for a page number. *)
Let page_req (page : Z) : Request :=
  mkRequest (render (process_env_CSOD_API_HOST env)
             ++ "/TranscriptAndTask/Transcript?"
             ++ ("PageNumber=" ++ number_text page ++ "&UserId=" ++ user
                 ++ "&Language=en-US"))%string
            [("Content-Type", "application/json"); ("Authorization", tok)]
            GET None.

Lemma fetch_world_any (r : Request) w :
  snd (fetch env r w)
  = mkWorld (clock w + Z.of_N (api_latency env (api_sent w))) (token w)
            (expiration w) (oauth_sent w) (S (api_sent w))
            (trace w ++ [Requested r]).
Proof.
  unfold fetch. now destruct (api_reply env (api_sent w) r).
Qed.

(** One turn of the loop, by the answer to its request. *)
Lemma getTranscripts_loop_step fuel page acc w :
  page <> 0 ->
  Index.getTranscripts_loop env number_text (S fuel) tok user page acc w
  = let w1 := snd (fetch env (page_req page) w) in
    match api_reply env (api_sent w) (page_req page) with
    | Rejected _ => (Returned ([], Some None), w1)
    | Resolved resp =>
        match json resp with
        | inl _ => (Returned ([], Some None), w1)
        | inr body =>
            if status resp =? 200 then
              match body with
              | None => (Thrown Index.data_of_null, w1)
              | Some d =>
                  if (0 <? List.length (Index.first_transcripts d))%nat then
                    Index.getTranscripts_loop env number_text fuel tok user
                      (page + 1) (acc ++ Index.first_transcripts d) w1
                  else (Returned (acc, None), w1)
              end
            else (Returned ([], option_map Some body), w1)
        end
    end.
Proof.
  intros Hpage. cbn [Index.getTranscripts_loop].
  apply Z.eqb_neq in Hpage. rewrite Hpage.
  unfold bind at 1. unfold Index.getJson, try_catch. unfold bind at 1.
  fold (page_req page). unfold fetch.
  destruct (api_reply env (api_sent w) (page_req page)) as [e | resp];
    [reflexivity |].
  cbn [snd]. unfold bind, response_json.
  destruct (json resp) as [e | body]; [reflexivity |].
  unfold ret. cbn [negb].
  destruct (status resp =? 200); cbn [negb];
    [| now destruct body].
  destruct body as [d |]; [| reflexivity].
  now destruct (0 <? List.length (Index.first_transcripts d))%nat.
Qed.

(** Every run of the loop is still going, or returns rows and null, or
    returns no rows and what err.data was, or throws; and it throws only
    after its last request was answered with the status 200 and the body
    null. *)
Lemma getTranscripts_loop_shape fuel : forall page acc w,
  exists w',
    Index.getTranscripts_loop env number_text fuel tok user page acc w
    = (OutOfFuel, w')
    \/ (exists rows,
          Index.getTranscripts_loop env number_text fuel tok user page acc w
          = (Returned (acc ++ rows, None), w'))
    \/ (exists e,
          Index.getTranscripts_loop env number_text fuel tok user page acc w
          = (Returned ([], e), w'))
    \/ (Index.getTranscripts_loop env number_text fuel tok user page acc w
        = (Thrown Index.data_of_null, w')
        /\ exists i page' resp,
             api_sent w' = S i
             /\ answered env i (page_req page') resp 200 None).
Proof.
  induction fuel as [| fuel IH]; intros page acc w.
  - exists w. now left.
  - destruct (Z.eq_dec page 0) as [-> | Hpage].
    + exists w. right. left. exists []. now rewrite app_nil_r.
    + rewrite (getTranscripts_loop_step fuel page acc w Hpage). cbn zeta.
      destruct (api_reply env (api_sent w) (page_req page)) as [e | resp] eqn:Hr.
      { eexists. right. right. left. now eexists. }
      destruct (json resp) as [e | body] eqn:Hj.
      { eexists. right. right. left. now eexists. }
      destruct (status resp =? 200) eqn:Hs.
      2: { eexists. right. right. left. now eexists. }
      destruct body as [d |].
      2: { eexists. right. right. right. split; [reflexivity |].
           exists (api_sent w), page, resp. rewrite fetch_world_any.
           split; [reflexivity |]. apply Z.eqb_eq in Hs. now repeat split. }
      destruct (0 <? List.length (Index.first_transcripts d))%nat.
      2: { eexists. right. left. exists []. now rewrite app_nil_r. }
      destruct (IH (page + 1) (acc ++ Index.first_transcripts d)
                  (snd (fetch env (page_req page) w)))
        as (w' & [Hrun | [[rows Hrun] | [[e Hrun] | [Hrun Hnull]]]]); exists w'.
      * now left.
      * right. left. exists (Index.first_transcripts d ++ rows).
        now rewrite app_assoc.
      * right. right. left. now exists e.
      * right. right. right. now split.
Qed.

(** Pages with transcripts, served in order to the page numbers from [page]
    on, are so many turns of the loop. *)
Lemma getTranscripts_loop_pages ds : forall fuel page acc w,
  0 < page ->
  (forall i d,
     nth_error ds i = Some d ->
     (exists resp,
        answered env (api_sent w + i) (page_req (page + Z.of_nat i)) resp 200
                 (Some d))
     /\ Index.first_transcripts d <> []) ->
  exists w',
    Index.getTranscripts_loop env number_text (List.length ds + fuel) tok user
      page acc w
    = Index.getTranscripts_loop env number_text fuel tok user
        (page + Z.of_nat (List.length ds))
        (acc ++ List.concat (map Index.first_transcripts ds)) w'
    /\ api_sent w' = (api_sent w + List.length ds)%nat
    /\ requested (trace w')
       = requested (trace w)
         ++ map (fun i => page_req (page + Z.of_nat i)) (seq 0 (List.length ds)).
Proof.
  induction ds as [| d ds IH]; intros fuel page acc w Hpage Hds.
  - exists w. cbn. rewrite !app_nil_r, Z.add_0_r. repeat split. lia.
  - destruct (Hds 0%nat d eq_refl) as [[resp (Hr & Hs & Hj)] Hne].
    rewrite Nat.add_0_r, Z.add_0_r in Hr.
    cbn [List.length Nat.add].
    rewrite (getTranscripts_loop_step (List.length ds + fuel) page acc w)
      by lia.
    cbn zeta. rewrite Hr, Hj, Hs. change (200 =? 200) with true. cbn iota.
    assert (Hpos : (0 <? List.length (Index.first_transcripts d))%nat = true).
    { apply Nat.ltb_lt. destruct (Index.first_transcripts d); [congruence |].
      cbn. lia. }
    rewrite Hpos.
    destruct (IH fuel (page + 1) (acc ++ Index.first_transcripts d)
                (snd (fetch env (page_req page) w)))
      as (w' & Hrun & Hsent & Hreq).
    { lia. }
    { intros i d' Hd'. destruct (Hds (S i) d' Hd') as [[resp' Ha] Hne'].
      split; [| exact Hne']. exists resp'.
      rewrite fetch_world_any. cbn [api_sent].
      replace (S (api_sent w) + i)%nat with (api_sent w + S i)%nat by lia.
      replace (page + 1 + Z.of_nat i) with (page + Z.of_nat (S i)) by lia.
      exact Ha. }
    exists w'. rewrite Hrun, Hsent, Hreq, fetch_world_any.
    cbn [api_sent trace map List.concat seq].
    split; [| split].
    + f_equal; [lia | now rewrite app_assoc].
    + lia.
    + assert (Hrq : forall t r, requested (t ++ [Requested r]) = requested t ++ [r]).
      { intros t r. induction t as [| [s | q |] t IHt]; cbn; congruence. }
      rewrite Hrq, <- app_assoc. cbn [app]. rewrite Z.add_0_r.
      do 2 f_equal. rewrite <- seq_shift, map_map.
      apply map_ext. intros i. f_equal. lia.
Qed.

End IndexTranscripts.

(** X19.  getTranscripts never returns rows together with an error, and it
    throws in one case only.  Whatever the server answers, with bodies that
    are null or of the declared type, a run is still going when the fuel is
    used up, or returns rows and null, or returns no rows and err.data (the
    body of an answer with a status other than 200, or undefined after an
    exception), or throws the TypeError of reading err.data of null; and it
    throws only when its last request was answered with the status 200 and
    the JSON body null. *)
Theorem getTranscripts_rows_or_error {I} (env : Env (Index.TranscriptBody I))
    (number_text : Z -> string) fuel tok user w :
  exists w',
    Index.getTranscripts env number_text fuel tok user w = (OutOfFuel, w')
    \/ (exists rows,
          Index.getTranscripts env number_text fuel tok user w
          = (Returned (rows, None), w'))
    \/ (exists e,
          Index.getTranscripts env number_text fuel tok user w
          = (Returned ([], e), w'))
    \/ (Index.getTranscripts env number_text fuel tok user w
        = (Thrown Index.data_of_null, w')
        /\ exists i page resp,
             api_sent w' = S i
             /\ answered env i (transcript_request env number_text tok user page)
                         resp 200 None).
Proof.
  unfold Index.getTranscripts.
  exact (getTranscripts_loop_shape env number_text tok user fuel 1 [] w).
Qed.

(** A page of transcripts followed by the answer 200 with the body null:
    getTranscripts throws, and the page fetched before is lost with it. *)
Lemma getTranscripts_throws_on_null :
  fst (Index.getTranscripts transcripts_then_null (fun _ => "n"%string) 2
         "Bearer abc" "SESA1" fresh)
  = Thrown Index.data_of_null.
Proof. reflexivity. Qed.

(** X20.  getTranscripts asks for the page numbers 1, 2, ... in turn and stops at
    the first page without transcripts: it returns the transcripts of the
    pages before, in order, and null. *)
Theorem getTranscripts_until_empty_page {I} (env : Env (Index.TranscriptBody I))
    (number_text : Z -> string) fuel tok user w ds resp last :
  serves_transcripts env number_text tok user w ds ->
  answered env (api_sent w + List.length ds)
           (transcript_request env number_text tok user
              (1 + Z.of_nat (List.length ds))) resp 200 (Some last) ->
  Index.first_transcripts last = [] ->
  (List.length ds < fuel)%nat ->
  exists w',
    Index.getTranscripts env number_text fuel tok user w
    = (Returned (List.concat (map Index.first_transcripts ds), None), w')
    /\ requested (trace w')
       = requested (trace w)
         ++ map (fun i => transcript_request env number_text tok user
                            (1 + Z.of_nat i))
                (seq 0 (S (List.length ds))).
Proof.
  intros Hds (Hr & Hs & Hj) Hempty Hfuel. unfold Index.getTranscripts.
  replace fuel with (List.length ds + S (fuel - S (List.length ds)))%nat by lia.
  destruct (getTranscripts_loop_pages env number_text tok user ds
              (S (fuel - S (List.length ds))) 1 [] w ltac:(lia) Hds)
    as (w1 & Hrun & Hsent & Hreq).
  rewrite Hrun, (getTranscripts_loop_step env number_text tok user) by lia.
  cbn zeta. rewrite Hsent.
  change (mkRequest _ _ GET None)
    with (transcript_request env number_text tok user
            (1 + Z.of_nat (List.length ds))).
  rewrite Hr, Hj, Hs, Hempty. change (200 =? 200) with true.
  cbn [List.length]. change (0 <? 0)%nat with false. cbn iota.
  rewrite app_nil_l.
  eexists. split; [reflexivity |].
  rewrite fetch_world_any. cbn [trace].
  assert (Hrq : forall t r, requested (t ++ [Requested r]) = requested t ++ [r]).
  { intros t r. induction t as [| [s | q |] t IHt]; cbn; congruence. }
  rewrite Hrq, Hreq, seq_S, map_app, app_assoc. reflexivity.
Qed.

Lemma getTranscripts_until_empty_page_witness :
  exists w',
    Index.getTranscripts transcripts_two_pages (fun _ => "n"%string) 3
      "Bearer abc" "SESA1" fresh
    = (Returned (["t1"; "t2"; "t3"]%string, None), w').
Proof.
  destruct (getTranscripts_until_empty_page transcripts_two_pages
              (fun _ => "n"%string) 3 "Bearer abc" "SESA1" fresh
              [transcripts_of ["t1"; "t2"]%string; transcripts_of ["t3"]%string]
              (mkResponse 200 "OK" (inr (Some (transcripts_of []))))
              (transcripts_of [])) as (w' & Hrun & _).
  - intros i d Hd. destruct i as [| [| i]]; cbn in Hd;
      [inversion Hd; subst; split;
       [eexists; repeat split; reflexivity | discriminate] ..|].
    destruct i; discriminate.
  - repeat split; reflexivity.
  - reflexivity.
  - cbn. lia.
  - exists w'. exact Hrun.
Defined.

(** X21.  getTranscripts gives all or nothing: when pages with transcripts have
    been fetched and the next request fails, the transcripts collected so far
    are dropped.  When the request ends in an exception the result is no rows
    and undefined; when it is answered with a status other than 200 the
    result is no rows and the body of that answer. *)
Theorem getTranscripts_drops_rows_on_failure {I}
    (env : Env (Index.TranscriptBody I)) (number_text : Z -> string) fuel tok
    user w ds :
  serves_transcripts env number_text tok user w ds ->
  (List.length ds < fuel)%nat ->
  let r := transcript_request env number_text tok user
             (1 + Z.of_nat (List.length ds)) in
  (forall e,
     faulted env (api_sent w + List.length ds) r e ->
     fst (Index.getTranscripts env number_text fuel tok user w)
     = Returned ([], Some None))
  /\ (forall resp c d,
        answered env (api_sent w + List.length ds) r resp c (Some d) ->
        c <> 200 ->
        fst (Index.getTranscripts env number_text fuel tok user w)
        = Returned ([], Some (Some d))).
Proof.
  intros Hds Hfuel r. unfold Index.getTranscripts.
  replace fuel with (List.length ds + S (fuel - S (List.length ds)))%nat by lia.
  destruct (getTranscripts_loop_pages env number_text tok user ds
              (S (fuel - S (List.length ds))) 1 [] w ltac:(lia) Hds)
    as (w1 & Hrun & Hsent & _).
  rewrite Hrun, (getTranscripts_loop_step env number_text tok user) by lia.
  cbn zeta. rewrite Hsent.
  change (mkRequest _ _ GET None) with r.
  split.
  - intros e [Hr | (resp & Hr & Hj)]; rewrite Hr; [reflexivity |].
    now rewrite Hj.
  - intros resp c d (Hr & Hs & Hj) Hc. rewrite Hr, Hj, Hs.
    apply Z.eqb_neq in Hc. now rewrite Hc.
Qed.

Lemma getTranscripts_drops_rows_on_failure_witness :
  fst (Index.getTranscripts transcripts_then_500 (fun _ => "n"%string) 2
         "Bearer abc" "SESA1" fresh)
  = Returned ([], Some (Some (Index.mkTranscriptData []))).
Proof.
  apply (proj2 (getTranscripts_drops_rows_on_failure transcripts_then_500
                  (fun _ => "n"%string) 2 "Bearer abc" "SESA1" fresh
                  [transcripts_of ["t1"; "t2"]%string]
                  ltac:(intros i d Hd; destruct i as [| i]; cbn in Hd;
                        [inversion Hd; subst; split;
                         [eexists; repeat split; reflexivity | discriminate]
                        | destruct i; discriminate])
                  ltac:(cbn; lia))
           (mkResponse 500 "Internal Server Error"
                       (inr (Some (Index.mkTranscriptData []))))
           500 (Index.mkTranscriptData [])).
  - repeat split; reflexivity.
  - discriminate.
Defined.

(** ** The requests of the entry points *)

(** X5.  What the two entry points of apiFetch.ts send, when the payload
    serialises: syncToEndpoint sends to the URI as given, with POST unless a
    method is given, with the Auth-Token header and no Authorization;
    fetchFromCSOD with a token sends to the host followed by the path, with
    that token under Authorization.  Both carry
    Content-Type: application/json, and every attempt of a call sends the
    same request. *)
Theorem entry_point_requests {Body} (env : Env Body) sync_token uri payload method
    t w b :
  payload_text payload = inr b ->
  (exists k,
     (1 <= k <= 6)%nat
     /\ trace (snd (syncToEndpoint env sync_token uri payload method w))
        = trace w
          ++ attempts_trace
               (mkRequest uri
                  [("Content-Type", "application/json"); ("Auth-Token", sync_token)]
                  (default_method method) b) k 0)
  /\ (exists k,
        (1 <= k <= 6)%nat
        /\ trace (snd (fetchFromCSOD env uri method payload (Some t) w))
           = trace w
             ++ attempts_trace
                  (mkRequest (CSOD_API_HOST env ++ uri)%string
                     [("Content-Type", "application/json"); ("Authorization", t)]
                     (default_method method) b) k 0).
Proof.
  intros Hp. split.
  - unfold syncToEndpoint.
    destruct (apiFetch_rec_attempts env uri [("Auth-Token", sync_token)] payload
                (Some (default_method method)) b (retry_fuel 0) 0 w Hp)
      as (k & Hk & Hbound & Hw).
    { unfold retry_fuel. lia. }
    exists k. split; [lia |]. unfold apiFetch. rewrite Hw.
    destruct (retried_frame env
                (request_of uri [("Auth-Token", sync_token)] payload
                   (Some (default_method method))) k 0 w)
      as (_ & _ & _ & _ & Hl).
    rewrite Hl.
    destruct (payload_text_request uri [("Auth-Token", sync_token)] payload
                (Some (default_method method)) b Hp) as [_ <-].
    reflexivity.
  - unfold fetchFromCSOD, bind, ret.
    destruct (apiFetch_rec_attempts env (CSOD_API_HOST env ++ uri)%string
                [("Authorization", t)] payload method b (retry_fuel 0) 0 w Hp)
      as (k & Hk & Hbound & Hw).
    { unfold retry_fuel. lia. }
    exists k. split; [lia |]. unfold apiFetch. rewrite Hw.
    destruct (retried_frame env
                (request_of (CSOD_API_HOST env ++ uri)%string
                   [("Authorization", t)] payload method) k 0 w)
      as (_ & _ & _ & _ & Hl).
    rewrite Hl.
    destruct (payload_text_request (CSOD_API_HOST env ++ uri)%string
                [("Authorization", t)] payload method b Hp) as [_ <-].
    reflexivity.
Qed.

Lemma entry_point_requests_witness :
  exists k,
    (1 <= k <= 6)%nat
    /\ trace (snd (syncToEndpoint always_429 "secret" "https://sync.example/users"
                     (Serializable "{}") None fresh))
       = attempts_trace
           (mkRequest "https://sync.example/users"
              [("Content-Type", "application/json"); ("Auth-Token", "secret")]
              POST (Some "{}"%string)) k 0.
Proof.
  apply (proj1 (entry_point_requests always_429 "secret" "https://sync.example/users"
                  (Serializable "{}") None "" fresh (Some "{}"%string) eq_refl)).
Defined.

(** X22.  fetchUserTranscript, when the cache holds a token that has not
    expired: it sends nothing to the token endpoint; its walk begins with the
    request to the host followed by the path of the transcript view and the
    encodeURI of the query (count, and the four filters joined by " and ",
    the last of them on the user id); and every request of the walk carries
    the cached token. *)
Theorem fetchUserTranscript_with_cached_token {T} (env : Env (ODataResponse T))
    (number_text : Z -> string) (encodeURI : string -> string) fuel userId w :
  must_issue (clock w) w = false ->
  let run := fetchUserTranscript env number_text encodeURI (S fuel) userId w in
  let uri := (CSOD_API_HOST env
              ++ "/x/odata/api/views/vw_rpt_transcript?"
              ++ encodeURI
                   ("$count=true&$filter=is_assigned eq true and is_archive eq 0"
                    ++ " and user_lo_min_due_date ne null and transc_user_id eq "
                    ++ number_text userId))%string in
  exists rest,
    oauth_sent (snd run) = oauth_sent w
    /\ trace (snd run)
       = trace w ++ Slept 0 :: Requested (page_request uri (render (token w))) :: rest
    /\ Forall (carries_token (render (token w))) rest.
Proof.
  intros Hfresh. cbn zeta. unfold fetchUserTranscript. cbn zeta.
  rewrite (paginated_first env fuel _ None None w (render (token w)) w).
  - destruct (paginated_walk_starts env fuel
                (first_uri env None
                   ("/x/odata/api/views/vw_rpt_transcript?"
                    ++ encodeURI
                         (String.concat "&"
                            ["$count=true";
                             ("$filter="
                              ++ String.concat " and "
                                   ["is_assigned eq true"; "is_archive eq 0";
                                    "user_lo_min_due_date ne null";
                                    ("transc_user_id eq "
                                     ++ number_text userId)%string])%string]))%string)
                (first_collection None) (render (token w)) w)
      as (rest & Hl & Hc & Ho).
    exists rest. split; [exact Ho |]. split; [exact Hl | exact Hc].
  - cbn [token_or_get]. unfold getCSODToken. now apply get_cached.
Qed.

Lemma fetchUserTranscript_with_cached_token_witness :
  exists rest,
    oauth_sent (snd (fetchUserTranscript dataset (fun _ => "7"%string) (fun s => s)
                       3 7 (snd (get dataset fresh)))) = 1%nat
    /\ trace (snd (fetchUserTranscript dataset (fun _ => "7"%string) (fun s => s)
                     3 7 (snd (get dataset fresh))))
       = [TokenRequested]
         ++ Slept 0
            :: Requested
                 (page_request
                    ("https://csod.example/x/odata/api/views/vw_rpt_transcript?"
                     ++ "$count=true&$filter=is_assigned eq true and is_archive eq 0"
                     ++ " and user_lo_min_due_date ne null and transc_user_id eq 7")
                    "Bearer abc")
            :: rest
    /\ Forall (carries_token "Bearer abc") rest.
Proof.
  apply (fetchUserTranscript_with_cached_token dataset (fun _ => "7"%string)
           (fun s => s) 2 7 (snd (get dataset fresh))).
  reflexivity.
Defined.
